(** * Barbearia-Agendamento: slot availability and booking

    A shallow embedding of [src/App.jsx]: the schedule grid
    ([isToday], [getAvailableSlots], [handleDateChange],
    [handleSelectTime], [handlePaymentAndBooking]), the dashboard's
    [upcomingAppointments], and the part of the host platform they run
    on (the ECMAScript [Date] object and the document store behind
    [addDoc] and [onSnapshot]). *)

From Stdlib Require Import ZArith List String Ascii Bool Lia Permutation Sorted.
From stdpp Require Import base list.
Import ListNotations.

Local Open Scope Z_scope.

(** ** The host's [Date] object

    A [Date] value is its time value: milliseconds since the epoch, a
    [Z].  The local zone is a constant offset [tz], in minutes east of
    UTC (Brazil's zones have had no daylight saving since 2019), so
    [getTimezoneOffset()] is [- tz].  The names follow ECMA-262,
    section "Date Objects". *)

Module JSDate.

Definition msPerDay : Z := 86400000.
Definition msPerHour : Z := 3600000.
Definition msPerMinute : Z := 60000.

Definition Day (t : Z) : Z := t / msPerDay.
Definition TimeWithinDay (t : Z) : Z := t mod msPerDay.
Definition WeekDay (t : Z) : Z := (Day t + 4) mod 7.

Definition LocalTime (tz t : Z) : Z := t + tz * msPerMinute.
Definition UTC (tz t : Z) : Z := t - tz * msPerMinute.

(** Year, month (1..12) and day of the month of a day number, in the
    proleptic Gregorian calendar.  The 400-year era that starts on
    1 March of year 0 is day [-719468]. *)
Definition daysPerEra : Z := 146097.
Definition eraShift : Z := 719468.

Definition civilOfDoe (doe : Z) : Z * Z * Z :=
  let yoe := (doe - doe / 1460 + doe / 36524 - doe / 146096) / 365 in
  let doy := doe - (365 * yoe + yoe / 4 - yoe / 100) in
  let mp := (5 * doy + 2) / 153 in
  let d := doy - (153 * mp + 2) / 5 + 1 in
  let m := if mp <? 10 then mp + 3 else mp - 9 in
  (if m <=? 2 then yoe + 1 else yoe, m, d).

Definition civilFromDays (z : Z) : Z * Z * Z :=
  let era := (z + eraShift) / daysPerEra in
  let doe := (z + eraShift) mod daysPerEra in
  let '(y, m, d) := civilOfDoe doe in
  (y + 400 * era, m, d).

Definition daysFromCivil (y m d : Z) : Z :=
  let y' := if m <=? 2 then y - 1 else y in
  let era := y' / 400 in
  let yoe := y' mod 400 in
  let doy := (153 * (if 2 <? m then m - 3 else m + 9) + 2) / 5 + d - 1 in
  let doe := yoe * 365 + yoe / 4 - yoe / 100 + doy in
  era * daysPerEra + doe - eraShift.

Definition YearFromTime (t : Z) : Z := let '(y, _, _) := civilFromDays (Day t) in y.
(** [MonthFromTime] is the month index, 0 for January. *)
Definition MonthFromTime (t : Z) : Z := let '(_, m, _) := civilFromDays (Day t) in m - 1.
Definition DateFromTime (t : Z) : Z := let '(_, _, d) := civilFromDays (Day t) in d.

(** [MakeDay(year, month, date)]: the month index is normalised into the
    year, the day of the month is added as an offset. *)
Definition MakeDay (year month date : Z) : Z :=
  let ym := year + month / 12 in
  let mn := month mod 12 in
  daysFromCivil ym (mn + 1) 1 + date - 1.

Definition MakeTime (hour min sec ms : Z) : Z :=
  hour * msPerHour + min * msPerMinute + sec * 1000 + ms.

Definition MakeDate (day time : Z) : Z := day * msPerDay + time.

(** [date.getFullYear()], [date.getMonth()], [date.getDate()],
    [date.getTime()]. *)
Definition getFullYear (tz t : Z) : Z := YearFromTime (LocalTime tz t).
Definition getMonth (tz t : Z) : Z := MonthFromTime (LocalTime tz t).
Definition getDate (tz t : Z) : Z := DateFromTime (LocalTime tz t).
Definition getTime (t : Z) : Z := t.

(** [new Date(year, monthIndex, day, hours, minutes)]: the arguments are
    local time; a year from 0 to 99 stands for 1900 + year. *)
Definition newDate (tz year month date hours minutes : Z) : Z :=
  let yr := if (0 <=? year) && (year <=? 99) then 1900 + year else year in
  UTC tz (MakeDate (MakeDay yr month date) (MakeTime hours minutes 0 0)).

(** The calendar day of an instant, as a day number: in UTC and in the
    local zone. *)
Definition utcDay (t : Z) : Z := Day t.
Definition localDay (tz t : Z) : Z := Day (LocalTime tz t).

(** [new Date().setHours(0, 0, 0, 0)]: local midnight of the day of [t]. *)
Definition setHours0 (tz t : Z) : Z :=
  UTC tz (MakeDate (Day (LocalTime tz t)) (MakeTime 0 0 0 0)).

(** [d.setDate(d.getDate() + days)] on a copy of [d]. *)
Definition setDate (tz t date : Z) : Z :=
  let lt := LocalTime tz t in
  UTC tz (MakeDate (MakeDay (YearFromTime lt) (MonthFromTime lt) date)
                   (TimeWithinDay lt)).

(** The instant at which the wall clock of the zone shows [h]:[m] on the
    local day [day]. *)
Definition wallClock (tz day h m : Z) : Z :=
  UTC tz (MakeDate day (MakeTime h m 0 0)).

(** *** A check of the calendar over one era *)

Definition doeOk (doe : Z) : bool :=
  let '(y, m, d) := civilOfDoe doe in
  (daysFromCivil y m d =? doe - eraShift)
  && (1 <=? m) && (m <=? 12) && (1 <=? d) && (d <=? 31)
  && (0 <=? y) && (y <=? 400).

Fixpoint allRange (P : Z -> bool) (k : nat) (lo : Z) : bool :=
  match k with
  | O => P lo
  | S k' => allRange P k' lo && allRange P k' (lo + 2 ^ Z.of_nat k')
  end.

(** *** Decimal digits and the strings the host prints *)

(** The character of the last decimal digit of [n]: code 48 is "0". *)
Definition digit (n : Z) : ascii := ascii_of_N (48 + Z.to_N (n mod 10)).

Definition digitVal (c : ascii) : option Z :=
  let n := Z.of_nat (nat_of_ascii c) in
  if (48 <=? n) && (n <=? 57) then Some (n - 48) else None.

(** The [w] low decimal digits of [n], most significant first. *)
Fixpoint digitsW (w : nat) (n : Z) : list ascii :=
  match w with
  | O => []
  | S w' => digitsW w' (n / 10) ++ [digit n]
  end.

Fixpoint ndigitsFuel (fuel : nat) (n : Z) : nat :=
  match fuel with
  | O => 1%nat
  | S f => if n <? 10 then 1%nat else S (ndigitsFuel f (n / 10))
  end.

(** The number of decimal digits of [n >= 0]. *)
Definition ndigits (n : Z) : nat := ndigitsFuel (Z.to_nat (Z.log2 n)) n.

(** [ToZeroPaddedDecimalString(n, minLength)]. *)
Definition ToZeroPaddedDecimalString (n : Z) (minLength : nat) : list ascii :=
  digitsW (Nat.max minLength (ndigits n)) n.

(** The value of a string of decimal digits; [None] when a character is
    not a digit. *)
Fixpoint decimalValue (acc : Z) (l : list ascii) : option Z :=
  match l with
  | [] => Some acc
  | c :: r =>
      match digitVal c with
      | Some v => decimalValue (10 * acc + v) r
      | None => None
      end
  end.

Definition weekdayName (wd : Z) : list ascii :=
  list_ascii_of_string
    (match wd with
     | 0 => "Sun" | 1 => "Mon" | 2 => "Tue" | 3 => "Wed"
     | 4 => "Thu" | 5 => "Fri" | _ => "Sat"
     end)%string.

(** The argument is the month number, 1 for January. *)
Definition monthName (m : Z) : list ascii :=
  list_ascii_of_string
    (match m with
     | 1 => "Jan" | 2 => "Feb" | 3 => "Mar" | 4 => "Apr"
     | 5 => "May" | 6 => "Jun" | 7 => "Jul" | 8 => "Aug"
     | 9 => "Sep" | 10 => "Oct" | 11 => "Nov" | _ => "Dec"
     end)%string.

(** The year of [toISOString]: four digits from 0 to 9999, else a sign
    and six digits. *)
Definition isoYear (y : Z) : list ascii :=
  if (0 <=? y) && (y <=? 9999) then digitsW 4 y
  else (if y <? 0 then "-"%char else "+"%char)
         :: ToZeroPaddedDecimalString (Z.abs y) 6.

(** The year of [toDateString]: at least four digits, a minus sign
    before a negative year. *)
Definition dateStringYear (y : Z) : list ascii :=
  (if y <? 0 then ["-"%char] else []) ++ ToZeroPaddedDecimalString (Z.abs y) 4.

(** The date part of [toISOString], of a day number. *)
Definition isoDate (day : Z) : list ascii :=
  let '(y, m, d) := civilFromDays day in
  isoYear y ++ "-"%char :: digitsW 2 m ++ "-"%char :: digitsW 2 d.

Definition isoTime (t : Z) : list ascii :=
  let s := TimeWithinDay t in
  digitsW 2 (s / msPerHour) ++ ":"%char :: digitsW 2 (s / msPerMinute mod 60)
    ++ ":"%char :: digitsW 2 (s / 1000 mod 60)
    ++ "."%char :: digitsW 3 (s mod 1000) ++ ["Z"%char].

(** The ISO text [YYYY-MM-DD] of a day number. *)
Definition isoText (day : Z) : string := string_of_list_ascii (isoDate day).

(** [date.toISOString()]: always in UTC. *)
Definition toISOString (t : Z) : string :=
  string_of_list_ascii (isoDate (Day t) ++ "T"%char :: isoTime t).

(** The text of [toDateString], of a day number: weekday, month, day of
    the month, year. *)
Definition dateText (day : Z) : list ascii :=
  let '(y, m, d) := civilFromDays day in
  weekdayName ((day + 4) mod 7) ++ " "%char :: monthName m
    ++ " "%char :: digitsW 2 d ++ " "%char :: dateStringYear y.

(** [date.toDateString()]: the local calendar day. *)
Definition toDateString (tz t : Z) : string :=
  string_of_list_ascii (dateText (Day (LocalTime tz t))).

End JSDate.

(** ** The host's [String] and [Number] *)

Module JSString.

(** [s.split(sep)] for a separator of one character. *)
Fixpoint split (sep : ascii) (s : string) : list string :=
  match s with
  | EmptyString => [EmptyString]
  | String c r =>
      if Ascii.eqb c sep then EmptyString :: split sep r
      else match split sep r with
           | [] => [String c EmptyString]
           | h :: t => String c h :: t
           end
  end.

(** [Number(s)] for a string of decimal digits ([Number("")] is 0);
    [None] is [NaN].  The other numeric literals of the language are
    not read: the strings converted here are pieces of slot labels. *)
Definition Number (s : string) : option Z :=
  JSDate.decimalValue 0 (list_ascii_of_string s).

(** [String(n)] for an integer [n >= 0]. *)
Definition ofNumber (n : Z) : string :=
  string_of_list_ascii (JSDate.ToZeroPaddedDecimalString n 1).

End JSString.

(** ** Appointment documents

    A document of the collection [artifacts/<appId>/public/data/appointments].
    The object literal [newAppointment] has no [id] and holds the
    [serverTimestamp()] placeholder in [createdAt]: both are [None]
    until the store assigns them.  A snapshot delivers
    [{ id: doc.id, ...doc.data() }].  The price 10.00 is the number 10. *)

Module Doc.

Record Appointment := {
  id : option string;
  userId : string;
  userName : string;
  whatsapp : string;
  date : string;
  time : string;
  service : string;
  price : Z;
  paid : bool;
  createdAt : option Z
}.

(** The slot a document occupies. *)
Definition slotKey (app : Appointment) : string * string := (date app, time app).

End Doc.

Abbreviation Appointment := Doc.Appointment.

(** ** The schedule grid *)

Module ScheduleGrid.

Import JSDate JSString.

(** [isToday]: [date.toDateString() === today.toDateString()], where
    [today] is the clock read by [new Date()]. *)
Definition isToday (tz date today : Z) : bool :=
  String.eqb (toDateString tz date) (toDateString tz today).

(** The label pushed for an hour:
    [`${hour < 10 ? '0' : ''}${hour}:00`]. *)
Definition slotLabel (hour : Z) : string :=
  String.append (if hour <? 10 then "0"%string else ""%string)
                (String.append (ofNumber hour) ":00"%string).

(** The loop [for (let hour = 9; hour <= 17; hour++)] with its guard
    [hour < 18]. *)
Definition timeSlots : list string :=
  flat_map (fun hour => if hour <? 18 then [slotLabel hour] else [])
           (map Z.of_nat (seq 9 9)).

(** [date.toISOString().split('T')[0]]. *)
Definition dateString (date : Z) : string :=
  nth 0 (split "T" (toISOString date)) EmptyString.

(** [appointments.some(app => app.date === dateString && app.time === time)]. *)
Definition isBooked (appointments : list Appointment) (dateString time : string) : bool :=
  existsb (fun app => String.eqb (Doc.date app) dateString
                      && String.eqb (Doc.time app) time)
          appointments.

(** [new Date(date.getFullYear(), date.getMonth(), date.getDate(), h, m)
    .getTime()] for [[h, m] = time.split(':').map(Number)]; [None] is
    [NaN] (a piece that is missing or not a number). *)
Definition slotTime (tz date : Z) (time : string) : option Z :=
  let parts := map Number (split ":" time) in
  match nth 0 parts None, nth 1 parts None with
  | Some h, Some m =>
      Some (getTime (newDate tz (getFullYear tz date) (getMonth tz date)
                             (getDate tz date) h m))
  | _, _ => None
  end.

(** The predicate of the filter in [getAvailableSlots]. *)
Definition slotFree (tz : Z) (appointments : list Appointment) (date now : Z)
    (time : string) : bool :=
  if isBooked appointments (dateString date) time then false
  else if isToday tz date now then
    match slotTime tz date time with
    | Some st => now + 60 * 60 * 1000 <? st
    | None => false
    end
  else true.

(** [getAvailableSlots(date)], with the component's [appointments] and
    the clock made arguments.  The clock reads of one call ([now] and
    the [today] of each [isToday]) are one instant [now]. *)
Definition getAvailableSlots (tz : Z) (appointments : list Appointment)
    (date now : Z) : list string :=
  List.filter (slotFree tz appointments date now) timeSlots.

(** *** Component state and handlers *)

Record UserProfile := { name : string; whatsapp : string }.

Record Props := { userId : string; userProfile : UserProfile }.

(** The [useState] cells of [ScheduleGrid]. *)
Record State := {
  selectedDate : Z;
  selectedTime : option string;
  appointments : list Appointment;
  isBooking : bool;
  error : string
}.

Definition setSelectedDate (v : Z) (g : State) : State :=
  {| selectedDate := v; selectedTime := selectedTime g;
     appointments := appointments g; isBooking := isBooking g;
     error := error g |}.
Definition setSelectedTime (v : option string) (g : State) : State :=
  {| selectedDate := selectedDate g; selectedTime := v;
     appointments := appointments g; isBooking := isBooking g;
     error := error g |}.
Definition setAppointments (v : list Appointment) (g : State) : State :=
  {| selectedDate := selectedDate g; selectedTime := selectedTime g;
     appointments := v; isBooking := isBooking g; error := error g |}.
Definition setIsBooking (v : bool) (g : State) : State :=
  {| selectedDate := selectedDate g; selectedTime := selectedTime g;
     appointments := appointments g; isBooking := v; error := error g |}.
Definition setError (v : string) (g : State) : State :=
  {| selectedDate := selectedDate g; selectedTime := selectedTime g;
     appointments := appointments g; isBooking := isBooking g;
     error := v |}.

(** The state of a freshly mounted grid: [useState(new Date())],
    [useState(null)], [useState([])], [useState(false)], [useState('')]. *)
Definition initialState (now : Z) : State :=
  {| selectedDate := now; selectedTime := None; appointments := [];
     isBooking := false; error := EmptyString |}.

(** [handleDateChange(days)]. *)
Definition handleDateChange (tz days now : Z) (g : State) : State :=
  let newDate :=
    setDate tz (selectedDate g) (getDate tz (selectedDate g) + days) in
  if getTime newDate <? setHours0 tz now then g
  else setError EmptyString (setSelectedTime None (setSelectedDate newDate g)).

(** [handleSelectTime(time)]. *)
Definition handleSelectTime (tm : string) (g : State) : State :=
  setError EmptyString (setSelectedTime (Some tm) g).

Definition noTimeMessage : string := "Por favor, selecione um horário.".
Definition paymentMessage : string :=
  "Pagamento cancelado ou falhou. O agendamento não foi concluído.".
Definition storeMessage : string :=
  "Falha ao registrar o agendamento no sistema. Tente novamente.".

(** The object literal [newAppointment]. *)
Definition newAppointment (p : Props) (g : State) (tm : string) : Appointment :=
  {| Doc.id := None;
     Doc.userId := userId p;
     Doc.userName := name (userProfile p);
     Doc.whatsapp := whatsapp (userProfile p);
     Doc.date := dateString (selectedDate g);
     Doc.time := tm;
     Doc.service := "Corte Clássico";
     Doc.price := 10;
     Doc.paid := true;
     Doc.createdAt := None |}.

(** [handlePaymentAndBooking] up to its [await]: the new state and the
    document handed to [addDoc], if the call is reached.  [confirm] is
    the answer of [window.confirm]; a [selectedTime] that is [null] or
    the empty string is falsy. *)
Definition handlePaymentAndBooking (p : Props) (confirm : bool) (g : State)
    : State * option Appointment :=
  match selectedTime g with
  | Some (String c r) =>
      if negb confirm then (setError paymentMessage g, None)
      else (setError EmptyString (setIsBooking true g),
            Some (newAppointment p g (String c r)))
  | _ => (setError noTimeMessage g, None)
  end.

(** [{ ...newAppointment, id: docRef.id }]. *)
Definition withId (i : string) (app : Appointment) : Appointment :=
  {| Doc.id := Some i;
     Doc.userId := Doc.userId app; Doc.userName := Doc.userName app;
     Doc.whatsapp := Doc.whatsapp app; Doc.date := Doc.date app;
     Doc.time := Doc.time app; Doc.service := Doc.service app;
     Doc.price := Doc.price app; Doc.paid := Doc.paid app;
     Doc.createdAt := Doc.createdAt app |}.

(** [handlePaymentAndBooking] from its [await] on: [docRefId] is the id
    of the reference [addDoc] resolved with, or [None] when it rejected.
    The result is the new state and the argument of
    [onBookingConfirmed], if it is called. *)
Definition addDocSettled (app : Appointment) (docRefId : option string)
    (g : State) : State * option Appointment :=
  match docRefId with
  | Some i => (setIsBooking false g, Some (withId i app))
  | None => (setIsBooking false (setError storeMessage g), None)
  end.

(** The start of a slot label in minutes after midnight, read the way
    [slotTime] reads it. *)
Definition minuteOfDay (time : string) : option Z :=
  let parts := map Number (split ":" time) in
  match nth 0 parts None, nth 1 parts None with
  | Some h, Some m => Some (h * 60 + m)
  | _, _ => None
  end.

Definition startsBefore (a b : string) : Prop :=
  match minuteOfDay a, minuteOfDay b with
  | Some x, Some y => x < y
  | _, _ => False
  end.

(** The fixed hourly set. *)
Definition businessHours : list string :=
  ["09:00"; "10:00"; "11:00"; "12:00"; "13:00"; "14:00"; "15:00"; "16:00";
   "17:00"]%string.

End ScheduleGrid.

(** ** Grids, the store and the events between them

    A [Session] is one mounted [ScheduleGrid] with its props, the
    [addDoc] calls it is awaiting and the calls it has made of
    [onBookingConfirmed].  The [World] is the appointments collection
    and the sessions of all clients.  Events are delivered one at a
    time (the event loop); the store applies writes one at a time. *)

Module Booking.

Import JSDate ScheduleGrid.

Record Session := {
  tz : Z;
  props : Props;
  mounted : bool;
  grid : State;
  inFlight : list Appointment;
  confirmed : list Appointment
}.

Record World := {
  store : list Appointment;
  sessions : list Session
}.

Definition withGrid (g : State) (s : Session) : Session :=
  {| tz := tz s; props := props s; mounted := mounted s; grid := g;
     inFlight := inFlight s; confirmed := confirmed s |}.

(** A grid just mounted at instant [now]. *)
Definition mount (zone : Z) (p : Props) (now : Z) : Session :=
  {| tz := zone; props := p; mounted := true; grid := initialState now;
     inFlight := []; confirmed := [] |}.

(** The document the store keeps for an [addDoc]: it assigns the id and
    resolves the [serverTimestamp()] placeholder. *)
Definition stored (newId : string) (serverTime : Z) (app : Appointment)
    : Appointment :=
  {| Doc.id := Some newId;
     Doc.userId := Doc.userId app; Doc.userName := Doc.userName app;
     Doc.whatsapp := Doc.whatsapp app; Doc.date := Doc.date app;
     Doc.time := Doc.time app; Doc.service := Doc.service app;
     Doc.price := Doc.price app; Doc.paid := Doc.paid app;
     Doc.createdAt := Some serverTime |}.

(** [addDoc(appointmentsRef, newAppointment)] when the write is applied:
    the collection gains the document, whatever it holds already. *)
Definition addDoc (docs : list Appointment) (newId : string) (serverTime : Z)
    (app : Appointment) : list Appointment :=
  docs ++ [stored newId serverTime app].

Inductive Event :=
| Snapshot (i : nat)
| PrevDay (i : nat) (now : Z)
| NextDay (i : nat) (now : Z)
| SelectTime (i : nat) (tm : string) (now : Z)
| ConfirmClick (i : nat) (paymentOk : bool)
| Leave (i : nat)
| AddDocSettles (i k : nat) (result : option (string * Z)).

(** The confirm button is rendered under [{selectedTime && ...}] and
    carries [disabled={isBooking}]; a disabled button dispatches no
    click. *)
Definition confirmEnabled (g : State) : bool :=
  match selectedTime g with
  | Some (String _ _) => negb (isBooking g)
  | _ => false
  end.

(** The previous-day button carries
    [disabled={selectedDate.getTime() <= new Date().setHours(0,0,0,0)}]. *)
Definition prevEnabled (zone now : Z) (g : State) : bool :=
  negb (getTime (selectedDate g) <=? setHours0 zone now).

(** A slot button exists for each element of [availableSlots]. *)
Definition slotRendered (tm : string) (availableSlots : list string) : bool :=
  existsb (String.eqb tm) availableSlots.

(** A click on the confirm button of a session. *)
Definition clickConfirm (paymentOk : bool) (s : Session) : Session :=
  if mounted s && confirmEnabled (grid s) then
    let '(g, call) := handlePaymentAndBooking (props s) paymentOk (grid s) in
    {| tz := tz s; props := props s; mounted := mounted s; grid := g;
       inFlight := inFlight s ++ option_list call; confirmed := confirmed s |}
  else s.

(** The continuation of the [k]-th awaited [addDoc] of a session runs.
    [onBookingConfirmed] shows the notification and switches to the
    dashboard, which unmounts the grid. *)
Definition settle (k : nat) (docRefId : option string) (s : Session) : Session :=
  match inFlight s !! k with
  | Some app =>
      let '(g, call) := addDocSettled app docRefId (grid s) in
      {| tz := tz s; props := props s;
         mounted := mounted s && negb (bool_decide (is_Some call));
         grid := g; inFlight := delete k (inFlight s);
         confirmed := confirmed s ++ option_list call |}
  | None => s
  end.

Definition stepSession (docs : list Appointment) (e : Event) (s : Session)
    : Session :=
  match e with
  | Snapshot _ =>
      if mounted s then withGrid (setAppointments docs (grid s)) s else s
  | PrevDay _ now =>
      if mounted s && prevEnabled (tz s) now (grid s)
      then withGrid (handleDateChange (tz s) (-1) now (grid s)) s else s
  | NextDay _ now =>
      if mounted s
      then withGrid (handleDateChange (tz s) 1 now (grid s)) s else s
  | SelectTime _ tm now =>
      if mounted s
         && slotRendered tm (getAvailableSlots (tz s) (appointments (grid s))
                                               (selectedDate (grid s)) now)
      then withGrid (handleSelectTime tm (grid s)) s else s
  | ConfirmClick _ paymentOk => clickConfirm paymentOk s
  | Leave _ =>
      {| tz := tz s; props := props s; mounted := false; grid := grid s;
         inFlight := inFlight s; confirmed := confirmed s |}
  | AddDocSettles _ k result => settle k (fst <$> result) s
  end.

Definition target (e : Event) : nat :=
  match e with
  | Snapshot i | PrevDay i _ | NextDay i _ | SelectTime i _ _
  | ConfirmClick i _ | Leave i | AddDocSettles i _ _ => i
  end.

(** The effect of an event on the collection: only a settled [addDoc]
    that the store accepted writes. *)
Definition stepStore (w : World) (e : Event) : list Appointment :=
  match e with
  | AddDocSettles i k (Some (newId, serverTime)) =>
      match sessions w !! i with
      | Some s =>
          match inFlight s !! k with
          | Some app => addDoc (store w) newId serverTime app
          | None => store w
          end
      | None => store w
      end
  | _ => store w
  end.

Definition step (w : World) (e : Event) : World :=
  {| store := stepStore w e;
     sessions :=
       match sessions w !! target e with
       | Some s => <[target e := stepSession (store w) e s]> (sessions w)
       | None => sessions w
       end |}.

Definition run (w : World) (events : list Event) : World :=
  fold_left step events w.

(** No two documents of a collection occupy the same slot. *)
Definition slotsUnique (docs : list Appointment) : Prop :=
  List.NoDup (map Doc.slotKey docs).

(** A booking attempt has failed: nothing is being committed and an
    error text is shown. *)
Definition failedWith (message : string) (g : State) : Prop :=
  isBooking g = false /\ error g = message /\ message <> EmptyString.

(** A session has at most one [addDoc] in flight, and only while
    [isBooking] is set. *)
Definition oneInFlight (s : Session) : Prop :=
  (length (inFlight s) <= 1)%nat
  /\ (inFlight s <> [] -> isBooking (grid s) = true).

End Booking.

(** ** The dashboard *)

Module Dashboard.

(** [Array.prototype.sort(comparator)].  The sort is stable (ECMAScript
    2019) and a comparator result of [NaN] ([None]) counts as 0, so for
    a consistent comparator the result is that of inserting each
    element before the first later one it does not compare greater
    than. *)
Section Sort.

Context {A : Type} (comparator : A -> A -> option Z).

Definition notAfter (x y : A) : bool :=
  match comparator x y with
  | Some v => v <=? 0
  | None => true
  end.

Fixpoint insertSorted (x : A) (l : list A) : list A :=
  match l with
  | [] => [x]
  | y :: r => if notAfter x y then x :: y :: r else y :: insertSorted x r
  end.

Definition sort (l : list A) : list A := fold_right insertSorted [] l.

End Sort.

(** An element of the mapped array: [{ ...app, dateTime }], the
    [dateTime] being its time value, [None] for an invalid date. *)
Record Upcoming := { app : Appointment; dateTime : option Z }.

Section UpcomingAppointments.

(** [new Date(string).getTime()] of the host, [None] for an invalid
    date.  Strings that are not in the ISO format are read as the host
    sees fit, so the parser is left open. *)
Variable dateOfString : string -> option Z.

(** [new Date(app.date + 'T' + app.time + ':00')]. *)
Definition startOf (a : Appointment) : option Z :=
  dateOfString
    (String.append (Doc.date a)
       (String.append "T" (String.append (Doc.time a) ":00"))).

Definition withDateTime (a : Appointment) : Upcoming :=
  {| app := a; dateTime := startOf a |}.

(** [app.dateTime.getTime() >= now.getTime()]; a comparison with [NaN]
    is false. *)
Definition isFuture (now : Z) (u : Upcoming) : bool :=
  match dateTime u with
  | Some t => now <=? t
  | None => false
  end.

(** [a.dateTime.getTime() - b.dateTime.getTime()]. *)
Definition byDateTime (a b : Upcoming) : option Z :=
  match dateTime a, dateTime b with
  | Some x, Some y => Some (x - y)
  | _, _ => None
  end.

(** The [useMemo] body of [DashboardScreen]. *)
Definition upcomingAppointments (userId : string)
    (appointments : list Appointment) (now : Z) : list Upcoming :=
  sort byDateTime
    (List.filter (isFuture now)
       (map withDateTime
          (List.filter (fun a => String.eqb (Doc.userId a) userId)
                       appointments))).

End UpcomingAppointments.

(** [x] starts no later than [y]. *)
Definition startsNoLater (x y : Upcoming) : Prop :=
  match dateTime x, dateTime y with
  | Some a, Some b => a <= b
  | _, _ => False
  end.

Definition startsAt (t : Z) (u : Upcoming) : bool :=
  match dateTime u with
  | Some x => x =? t
  | None => false
  end.

(** The order by start instant with ties broken by [createdAt]. *)
Definition createdNoLater (x y : Appointment) : Prop :=
  match Doc.createdAt x, Doc.createdAt y with
  | Some c, Some d => c <= d
  | _, _ => True
  end.

Definition startThenCreatedAt (x y : Upcoming) : Prop :=
  match dateTime x, dateTime y with
  | Some a, Some b => a < b \/ (a = b /\ createdNoLater (app x) (app y))
  | _, _ => False
  end.

(** The [dateTime] of an element is a valid date. *)
Definition hasTime (u : Upcoming) : Prop := exists t, dateTime u = Some t.

(** A host parser for examples: the local date-time format
    [YYYY-MM-DDTHH:mm:ss] in the zone [tz]. *)
Definition isoLocal (tz : Z) (s : string) : option Z :=
  match list_ascii_of_string s with
  | [y1; y2; y3; y4; "-"; m1; m2; "-"; d1; d2; "T"; h1; h2; ":"; n1; n2;
     ":"; s1; s2]%char =>
      match JSDate.decimalValue 0 [y1; y2; y3; y4],
            JSDate.decimalValue 0 [m1; m2], JSDate.decimalValue 0 [d1; d2],
            JSDate.decimalValue 0 [h1; h2], JSDate.decimalValue 0 [n1; n2],
            JSDate.decimalValue 0 [s1; s2] with
      | Some y, Some m, Some d, Some h, Some n, Some sec =>
          if (1 <=? m) && (m <=? 12) && (1 <=? d) && (d <=? 31)
             && (h <=? 23) && (n <=? 59) && (sec <=? 59)
          then Some (JSDate.UTC tz
                       (JSDate.MakeDate (JSDate.MakeDay y (m - 1) d)
                                        (JSDate.MakeTime h n sec 0)))
          else None
      | _, _, _, _, _, _ => None
      end
  | _ => None
  end.

End Dashboard.

(** ** Text the user types

    The form fields are inspected character by character ([\s], [\D],
    [\d]), so their text is a sequence of UTF-16 code units. *)

Module JSText.

Local Open Scope N_scope.

(** The class [\d] of a regular expression, [\D] being its complement. *)
Definition isDigit (c : N) : bool := (48 <=? c) && (c <=? 57).

(** The class [\s], which is also what [trim] removes: the white space
    and line terminator code points of ECMA-262. *)
Definition isWhiteSpace (c : N) : bool :=
  ((9 <=? c) && (c <=? 13)) || (c =? 32) || (c =? 160) || (c =? 5760)
  || ((8192 <=? c) && (c <=? 8202)) || (c =? 8232) || (c =? 8233)
  || (c =? 8239) || (c =? 8287) || (c =? 12288) || (c =? 65279).

(** [s.replace(/\D/g, '')]. *)
Definition removeNonDigits (s : list N) : list N := List.filter isDigit s.

Fixpoint trimStart (s : list N) : list N :=
  match s with
  | [] => []
  | c :: r => if isWhiteSpace c then trimStart r else c :: r
  end.

Fixpoint trimEnd (s : list N) : list N :=
  match s with
  | [] => []
  | c :: r =>
      match trimEnd r with
      | [] => if isWhiteSpace c then [] else [c]
      | r' => c :: r'
      end
  end.

(** [s.trim()]. *)
Definition trim (s : list N) : list N := trimEnd (trimStart s).

(** [s.split(/\s+/)]: the pieces between the maximal runs of white
    space.  [inRun] tells that the character before was white space. *)
Fixpoint splitRuns (inRun : bool) (s : list N) : list (list N) :=
  match s with
  | [] => [[]]
  | c :: r =>
      if isWhiteSpace c then
        if inRun then splitRuns true r else [] :: splitRuns true r
      else
        match splitRuns false r with
        | [] => [[c]]
        | h :: t => (c :: h) :: t
        end
  end.

Definition splitWhiteSpace (s : list N) : list (list N) := splitRuns false s.

(** [s.replace(/(\d{2})(\d{2})(\d{5})(\d{4})/, '$1 ($2) $3-$4')]: the
    leftmost thirteen digits in a row are regrouped. *)
Fixpoint regroupDigits (s : list N) : list N :=
  match s with
  | [] => []
  | c :: r =>
      let m := firstn 13 s in
      if (length m =? 13)%nat && forallb isDigit m then
        firstn 2 m ++ [32; 40] ++ firstn 2 (skipn 2 m) ++ [41; 32]
          ++ firstn 5 (skipn 4 m) ++ [45] ++ skipn 9 m ++ skipn 13 s
      else c :: regroupDigits r
  end.

(** The code units of a text of ASCII characters. *)
Definition ofString (s : string) : list N :=
  map N_of_ascii (list_ascii_of_string s).

(** The words of a text: its maximal runs of characters that are not
    white space.  [inRun] as in [splitRuns]. *)
Fixpoint countWords (inRun : bool) (s : list N) : nat :=
  match s with
  | [] => 0%nat
  | c :: r =>
      if isWhiteSpace c then countWords true r
      else ((if inRun then 1 else 0) + countWords false r)%nat
  end.

Definition wordCount (s : list N) : nat := countWords true s.

(** The text does not end in white space. *)
Fixpoint endsClean (s : list N) : bool :=
  match s with
  | [] => true
  | c :: r =>
      match r with
      | [] => negb (isWhiteSpace c)
      | _ => endsClean r
      end
  end.

(** The text does not begin with white space. *)
Definition startsClean (s : list N) : bool :=
  match s with
  | [] => true
  | c :: _ => negb (isWhiteSpace c)
  end.

End JSText.

(** ** The profile form *)

Module AuthScreen.

Import JSText.

(** [formatWhatsapp]. *)
Definition formatWhatsapp (num : list N) : list N := removeNonDigits num.

(** The object written by [setDoc] and handed to [onProfileComplete];
    the [createdAt] of the written document is the store's. *)
Record Profile := {
  profileName : list N;
  profileWhatsapp : list N;
  profileComplete : bool
}.

(** The [useState] cells of [AuthScreen]. *)
Record State := {
  name : list N;
  whatsapp : list N;
  isLoading : bool;
  error : string
}.

Definition setIsLoading (v : bool) (f : State) : State :=
  {| name := name f; whatsapp := whatsapp f; isLoading := v;
     error := error f |}.
Definition setError (v : string) (f : State) : State :=
  {| name := name f; whatsapp := whatsapp f; isLoading := isLoading f;
     error := v |}.

Definition nameMessage : string :=
  "Por favor, preencha o nome completo (nome e sobrenome).".
Definition whatsappMessage : string :=
  "O número de WhatsApp deve ter 11 dígitos (DD + 9XXXX-XXXX).".
Definition saveMessage : string :=
  "Falha ao salvar o perfil. Tente novamente.".

(** [!name || name.trim().split(/\s+/).length < 2]. *)
Definition nameTooShort (nm : list N) : bool :=
  match nm with
  | [] => true
  | _ => (length (splitWhiteSpace (trim nm)) <? 2)%nat
  end.

(** [handleSubmit] up to its [await]: the new state and the profile
    handed to [setDoc], if the call is reached. *)
Definition handleSubmit (f : State) : State * option Profile :=
  let f1 := setIsLoading true (setError EmptyString f) in
  let formattedWhatsapp := formatWhatsapp (whatsapp f) in
  if nameTooShort (name f) then
    (setIsLoading false (setError nameMessage f1), None)
  else if negb (length formattedWhatsapp =? 11)%nat then
    (setIsLoading false (setError whatsappMessage f1), None)
  else
    (f1, Some {| profileName := trim (name f);
                 profileWhatsapp := formattedWhatsapp;
                 profileComplete := true |}).

(** [handleSubmit] from its [await] on: [written] tells whether
    [setDoc] resolved.  The result is the new state and the argument of
    [onProfileComplete], if it is called. *)
Definition setDocSettled (written : bool) (p : Profile) (f : State)
    : State * option Profile :=
  if written then (setIsLoading false f, Some p)
  else (setIsLoading false (setError saveMessage f), None).

End AuthScreen.

(** ** What the dashboard prints of the profile *)

Module DashboardProfile.

Import JSText.

(** ['Não informado']. *)
Definition notInformed : list N :=
  ofString "N" ++ [227%N] ++ ofString "o informado".

(** The expression [formattedWhatsapp] of [DashboardScreen]; an empty
    [whatsapp] is falsy. *)
Definition formattedWhatsapp (w : list N) : list N :=
  match w with
  | [] => notInformed
  | _ => 43%N :: regroupDigits w
  end.

End DashboardProfile.

(** ** Collection paths *)

Module Paths.

Import JSString.

(** [rawAppId.split('/')[0]]. *)
Definition appId (rawAppId : string) : string :=
  nth 0 (split "/" rawAppId) EmptyString.


(** [`artifacts/${appId}/public/data/appointments`]. *)
Definition getAppointmentsCollectionPath (rawAppId : string) : string :=
  String.append "artifacts/"
    (String.append (appId rawAppId) "/public/data/appointments").


End Paths.

(** ** Concrete instants, records and runs

    The inputs of the examples below: the zone is UTC-3. *)

Module Scenarios.

Import JSDate ScheduleGrid Booking.

(** 2026-11-02, 08:00 in the zone UTC-3, and the same hour the day
    before. *)
Definition morning : Z := 1793617200000.
Definition yesterdayMorning : Z := morning - msPerDay.

(** A committed booking of 2026-11-02 10:00. *)
Definition bookedAt10 : Appointment :=
  {| Doc.id := Some "doc-0"%string; Doc.userId := "uid-carla";
     Doc.userName := "Carla Dias"; Doc.whatsapp := "31999990000";
     Doc.date := "2026-11-02"; Doc.time := "10:00";
     Doc.service := "Corte Clássico"; Doc.price := 10; Doc.paid := true;
     Doc.createdAt := Some 1793600000000 |}.

(** 2026-11-02, 22:30 in the zone UTC-3: already 2026-11-03 in UTC. *)
Definition lateEvening : Z := 1793669400000.

Definition alice : Props :=
  {| userId := "uid-alice";
     userProfile := {| name := "Alice Souza"; whatsapp := "11987654321" |} |}.
Definition bruno : Props :=
  {| userId := "uid-bruno";
     userProfile := {| name := "Bruno Lima"; whatsapp := "21912345678" |} |}.

Definition twoClients : World :=
  {| store := [];
     sessions := [mount (-180) alice morning; mount (-180) bruno morning] |}.

(** Alice sees 14:00 free, picks it and pays: her write is in flight. *)
Definition aliceCommits : list Event :=
  [Snapshot 0; SelectTime 0 "14:00" morning; ConfirmClick 0 true].

Definition aliceCommitting : Session :=
  Eval vm_compute in
    match sessions (run twoClients aliceCommits) !! 0%nat with
    | Some s => s
    | None => mount 0 alice 0
    end.

Definition aliceRecord : Appointment :=
  Eval vm_compute in newAppointment alice (grid aliceCommitting) "14:00".

(** Both clients see 14:00 free, pick it and pay; both writes are then
    applied. *)
Definition raceFor14 : list Event :=
  [Snapshot 0; Snapshot 1;
   SelectTime 0 "14:00" morning; SelectTime 1 "14:00" morning;
   ConfirmClick 0 true; ConfirmClick 1 true;
   AddDocSettles 0 0 (Some ("doc-1"%string, morning + 1000));
   AddDocSettles 1 0 (Some ("doc-2"%string, morning + 2000))].

(** A client whose cache is older than the store: bruno's grid has seen
    no snapshot since alice's booking of 14:00 was committed. *)
Definition lateClient : list Event :=
  [Snapshot 0; SelectTime 0 "14:00" morning; ConfirmClick 0 true;
   AddDocSettles 0 0 (Some ("doc-1"%string, morning + 1000));
   SelectTime 1 "14:00" morning; ConfirmClick 1 true].

(** Bruno's session and the record it is committing at the end of
    [lateClient]. *)
Definition brunoCommitting : Session :=
  Eval vm_compute in
    match sessions (run twoClients lateClient) !! 1%nat with
    | Some s => s
    | None => mount 0 bruno 0
    end.

Definition brunoRecord : Appointment :=
  Eval vm_compute in newAppointment bruno (grid brunoCommitting) "14:00".

(** Two bookings of the same client for the same slot, the later
    created one first in the snapshot. *)
Definition createdLater : Appointment :=
  {| Doc.id := Some "doc-2"%string; Doc.userId := "uid-alice";
     Doc.userName := "Alice Souza"; Doc.whatsapp := "11987654321";
     Doc.date := "2026-11-03"; Doc.time := "10:00";
     Doc.service := "Corte Clássico"; Doc.price := 10; Doc.paid := true;
     Doc.createdAt := Some 1793617202000 |}.
Definition createdEarlier : Appointment :=
  {| Doc.id := Some "doc-1"%string; Doc.userId := "uid-alice";
     Doc.userName := "Alice Souza"; Doc.whatsapp := "11987654321";
     Doc.date := "2026-11-03"; Doc.time := "10:00";
     Doc.service := "Corte Clássico"; Doc.price := 10; Doc.paid := true;
     Doc.createdAt := Some 1793617201000 |}.

End Scenarios.

(** ** Predicates on runs of the booking flow *)

Module BookingRuns.

Import JSDate ScheduleGrid Booking.

(** The clock an event carries, if it reads one. *)
Definition clock (e : Event) : option Z :=
  match e with
  | PrevDay _ now | NextDay _ now | SelectTime _ _ now => Some now
  | _ => None
  end.

(** No event reads a clock before [t0]. *)
Definition clocksFrom (t0 : Z) (events : list Event) : Prop :=
  Forall (fun e => match clock e with Some now => t0 <= now | None => True end)
         events.

(** The fields [handlePaymentAndBooking] gives a record of the client
    with props [p]. *)
Definition writtenFor (p : Props) (r : Appointment) : Prop :=
  In (Doc.time r) businessHours
  /\ (exists day, Doc.date r = isoText day)
  /\ Doc.userId r = userId p
  /\ Doc.userName r = name (userProfile p)
  /\ Doc.whatsapp r = whatsapp (userProfile p)
  /\ Doc.service r = "Corte Clássico"%string
  /\ Doc.price r = 10
  /\ Doc.paid r = true.

(** A session whose selected time, if any, is a label of the fixed set
    and whose writes in flight are records of its client. *)
Definition wellFormed (s : Session) : Prop :=
  (forall tm, selectedTime (grid s) = Some tm -> In tm businessHours)
  /\ Forall (writtenFor (props s)) (inFlight s).

(** The grid of a session shows a day that is not before the day of
    [t0] in its zone. *)
Definition notBefore (t0 : Z) (s : Session) : Prop :=
  localDay (tz s) t0 <= localDay (tz s) (selectedDate (grid s)).

(** A session that has neither a write in flight nor a confirmation. *)
Definition idle (s : Session) : Prop := inFlight s = [] /\ confirmed s = [].

(** A session confirms at most one booking, and is unmounted once it
    has. *)
Definition confirmsOnce (s : Session) : Prop :=
  (length (confirmed s) + length (inFlight s) <= 1)%nat
  /\ (inFlight s <> [] -> isBooking (grid s) = true)
  /\ (confirmed s <> [] -> mounted s = false).

End BookingRuns.

Module MoreScenarios.

Import JSDate ScheduleGrid Booking Scenarios.

(** 2026-11-02, 16:00 in the zone UTC-3, and 08:00 the day after. *)
Definition at16h : Z := 1793646000000.
Definition tomorrowMorning : Z := morning + msPerDay.

(** An application id that carries a file path, and a user id. *)
Definition canvasAppId : string := "c_7f3a/src/App.jsx".

(** A form filled in with a padded two-word name and a number written
    with punctuation: " Ana  Lima " and "(11) 98765-4321". *)
Definition filledForm : AuthScreen.State :=
  {| AuthScreen.name := JSText.ofString " Ana  Lima ";
     AuthScreen.whatsapp := JSText.ofString "(11) 98765-4321";
     AuthScreen.isLoading := false;
     AuthScreen.error := EmptyString |}.

(** Alice looks at tomorrow and tries to go back twice in the
    afternoon. *)
Definition browsing : list Event :=
  [NextDay 0 morning; PrevDay 0 at16h; PrevDay 0 at16h].

(** Bruno has picked 14:00 from his old cache while alice's record for
    it is in the collection: his session then. *)
Definition brunoSelects : list Event :=
  [Snapshot 0; SelectTime 0 "14:00" morning; ConfirmClick 0 true;
   AddDocSettles 0 0 (Some ("doc-1"%string, morning + 1000));
   SelectTime 1 "14:00" morning].

Definition brunoSelected : Session :=
  Eval vm_compute in
    match sessions (run twoClients brunoSelects) !! 1%nat with
    | Some s => s
    | None => mount 0 bruno 0
    end.

(** After [lateClient] a snapshot reaches bruno: his session then, and
    alice's record as his cache holds it. *)
Definition brunoSynced : list Event := lateClient ++ [Snapshot 1].

Definition brunoAfterSync : Session :=
  Eval vm_compute in
    match sessions (run twoClients brunoSynced) !! 1%nat with
    | Some s => s
    | None => mount 0 bruno 0
    end.

Definition cachedAt14 : Appointment :=
  Eval vm_compute in
    match appointments (grid brunoAfterSync) with
    | a :: _ => a
    | [] => bookedAt10
    end.

(** Alice's session at the end of [raceFor14]. *)
Definition aliceConfirmed : Session :=
  Eval vm_compute in
    match sessions (run twoClients raceFor14) !! 0%nat with
    | Some s => s
    | None => mount 0 alice 0
    end.

End MoreScenarios.

(** * Properties of the host model *)

Module JSDateFacts.

Import JSDate.

(** *** The calendar algorithms are inverse to each other *)

Lemma allRange_spec (P : Z -> bool) (k : nat) :
  forall lo, allRange P k lo = true ->
  forall z, lo <= z < lo + 2 ^ Z.of_nat k -> P z = true.
Proof.
  induction k as [|k IH]; intros lo H z Hz.
  - simpl in *. replace z with lo by lia. exact H.
  - cbn [allRange] in H. apply andb_true_iff in H as [H1 H2].
    rewrite Nat2Z.inj_succ, Z.pow_succ_r in Hz by lia.
    destruct (Z_lt_ge_dec z (lo + 2 ^ Z.of_nat k)).
    + apply (IH lo H1). lia.
    + apply (IH _ H2). lia.
Qed.

Lemma era_table :
  allRange (fun z => if daysPerEra <=? z then true else doeOk z) 18 0 = true.
Proof. vm_cast_no_check (eq_refl true). Qed.

Lemma doeOk_era (doe : Z) : 0 <= doe < daysPerEra -> doeOk doe = true.
Proof.
  intros H.
  pose proof (allRange_spec _ _ _ era_table doe) as T.
  cbv beta in T.
  destruct (daysPerEra <=? doe) eqn:E.
  - apply Z.leb_le in E. lia.
  - apply T. unfold daysPerEra in *. simpl. lia.
Qed.

Lemma daysFromCivil_era (y m d e : Z) :
  daysFromCivil (y + 400 * e) m d = daysFromCivil y m d + daysPerEra * e.
Proof.
  unfold daysFromCivil.
  set (y' := if m <=? 2 then y - 1 else y).
  replace (if m <=? 2 then y + 400 * e - 1 else y + 400 * e)
    with (y' + e * 400) by (subst y'; destruct (m <=? 2); lia).
  rewrite Z.div_add, Z.mod_add by lia. lia.
Qed.

Lemma civilFromDays_spec (z : Z) :
  exists y m d, civilFromDays z = (y, m, d)
    /\ daysFromCivil y m d = z /\ 1 <= m <= 12 /\ 1 <= d <= 31.
Proof.
  unfold civilFromDays.
  assert (R : 0 <= (z + eraShift) mod daysPerEra < daysPerEra)
    by (apply Z.mod_pos_bound; reflexivity).
  pose proof (doeOk_era _ R) as Ok. unfold doeOk in Ok.
  destruct (civilOfDoe ((z + eraShift) mod daysPerEra)) as [[y m] d].
  repeat (apply andb_true_iff in Ok as [Ok ?]).
  exists (y + 400 * ((z + eraShift) / daysPerEra)), m, d.
  split; [reflexivity|].
  rewrite daysFromCivil_era.
  apply Z.eqb_eq in Ok. rewrite Ok.
  pose proof (Z.div_mod (z + eraShift) daysPerEra ltac:(discriminate)).
  split; [lia|]. lia.
Qed.

Lemma civilFromDays_inj (a b : Z) : civilFromDays a = civilFromDays b -> a = b.
Proof.
  intros E.
  destruct (civilFromDays_spec a) as (y & m & d & Ea & Ra & _).
  destruct (civilFromDays_spec b) as (y' & m' & d' & Eb & Rb & _).
  congruence.
Qed.

(** *** Printed days are injective *)

Lemma digit_cases (n : Z) :
  exists k, 0 <= k <= 9 /\ n mod 10 = k /\ digitVal (digit n) = Some k
            /\ digit n <> "T"%char.
Proof.
  pose proof (Z.mod_pos_bound n 10 ltac:(lia)) as B.
  unfold digit. set (k := n mod 10) in *. exists k.
  assert (C : k = 0 \/ k = 1 \/ k = 2 \/ k = 3 \/ k = 4 \/ k = 5 \/ k = 6
              \/ k = 7 \/ k = 8 \/ k = 9) by lia.
  repeat (destruct C as [C | C]); rewrite C;
    (split; [lia | split; [reflexivity | split; [reflexivity | discriminate]]]).
Qed.

Lemma decimalValue_snoc (l : list ascii) (c : ascii) :
  forall acc v d, decimalValue acc l = Some v -> digitVal c = Some d ->
  decimalValue acc (l ++ [c]) = Some (10 * v + d).
Proof.
  induction l as [|x l IH]; intros acc v d Hl Hc; simpl in *.
  - injection Hl as <-. rewrite Hc. reflexivity.
  - destruct (digitVal x); [|discriminate]. eauto.
Qed.

Lemma decimalValue_digitsW (w : nat) :
  forall n, 0 <= n < 10 ^ Z.of_nat w ->
  decimalValue 0 (digitsW w n) = Some n.
Proof.
  induction w as [|w IH]; intros n Hn.
  - simpl in *. f_equal. lia.
  - rewrite Nat2Z.inj_succ, Z.pow_succ_r in Hn by lia.
    cbn [digitsW].
    destruct (digit_cases n) as (k & _ & Hk & Hd & _).
    rewrite (decimalValue_snoc _ _ 0 (n / 10) k); [| apply IH | exact Hd].
    + f_equal. pose proof (Z.div_mod n 10 ltac:(lia)). lia.
    + split; [apply Z.div_pos; lia | apply Z.div_lt_upper_bound; lia].
Qed.

Lemma digitsW_inj (w : nat) (a b : Z) :
  0 <= a < 10 ^ Z.of_nat w -> 0 <= b < 10 ^ Z.of_nat w ->
  digitsW w a = digitsW w b -> a = b.
Proof.
  intros Ha Hb E.
  pose proof (decimalValue_digitsW w a Ha) as Va.
  rewrite E, (decimalValue_digitsW w b Hb) in Va. congruence.
Qed.

Lemma length_digitsW (w : nat) : forall n, length (digitsW w n) = w.
Proof.
  induction w as [|w IH]; intros n; [reflexivity|].
  cbn [digitsW]. rewrite length_app, IH. simpl. lia.
Qed.

Lemma digitsW_notT (w : nat) :
  forall n, Forall (fun c => c <> "T"%char) (digitsW w n).
Proof.
  induction w as [|w IH]; intros n; cbn [digitsW]; [constructor|].
  apply Forall_app. split; [apply IH|].
  constructor; [|constructor].
  destruct (digit_cases n) as (k & _ & _ & _ & H). exact H.
Qed.

Lemma ndigitsFuel_bound (fuel : nat) :
  forall n, 0 <= n < 10 * 2 ^ Z.of_nat fuel ->
  n < 10 ^ Z.of_nat (ndigitsFuel fuel n).
Proof.
  induction fuel as [|f IH]; intros n Hn.
  - simpl in *. lia.
  - cbn [ndigitsFuel]. destruct (n <? 10) eqn:E.
    + apply Z.ltb_lt in E. simpl. lia.
    + apply Z.ltb_ge in E.
      rewrite Nat2Z.inj_succ, Z.pow_succ_r in Hn by lia.
      rewrite Nat2Z.inj_succ, Z.pow_succ_r by lia.
      assert (B : n / 10 < 10 ^ Z.of_nat (ndigitsFuel f (n / 10))).
      { apply IH. split; [apply Z.div_pos; lia|].
        apply Z.div_lt_upper_bound; lia. }
      pose proof (Z.div_mod n 10 ltac:(lia)).
      pose proof (Z.mod_pos_bound n 10 ltac:(lia)). lia.
Qed.

Lemma ndigits_bound (n : Z) : 0 <= n -> n < 10 ^ Z.of_nat (ndigits n).
Proof.
  intros Hn. apply ndigitsFuel_bound. split; [exact Hn|].
  destruct (Z.eq_dec n 0) as [->|Hz]; [simpl; lia|].
  rewrite Z2Nat.id by apply Z.log2_nonneg.
  pose proof (Z.log2_spec n ltac:(lia)) as [_ U].
  rewrite Z.pow_succ_r in U by apply Z.log2_nonneg.
  pose proof (Z.pow_pos_nonneg 2 (Z.log2 n) ltac:(lia) (Z.log2_nonneg n)). lia.
Qed.

Lemma padded_bound (n : Z) (k : nat) :
  0 <= n -> 0 <= n < 10 ^ Z.of_nat (Nat.max k (ndigits n)).
Proof.
  intros Hn. split; [exact Hn|].
  eapply Z.lt_le_trans; [apply ndigits_bound; exact Hn|].
  apply Z.pow_le_mono_r; lia.
Qed.

Lemma padded_inj (a b : Z) (k : nat) :
  0 <= a -> 0 <= b ->
  ToZeroPaddedDecimalString a k = ToZeroPaddedDecimalString b k -> a = b.
Proof.
  unfold ToZeroPaddedDecimalString. intros Ha Hb E.
  pose proof (f_equal (@length ascii) E) as L.
  rewrite !length_digitsW in L.
  pose proof (padded_bound a k Ha) as Ba.
  pose proof (padded_bound b k Hb) as Bb.
  rewrite L in Ba, E. exact (digitsW_inj _ _ _ Ba Bb E).
Qed.

Lemma padded_value (n : Z) (k : nat) :
  0 <= n -> decimalValue 0 (ToZeroPaddedDecimalString n k) = Some n.
Proof. intros Hn. apply decimalValue_digitsW, padded_bound, Hn. Qed.

Lemma isoYear_inj (a b : Z) : isoYear a = isoYear b -> a = b.
Proof.
  unfold isoYear. intros E.
  destruct ((0 <=? a) && (a <=? 9999)) eqn:Ra;
    destruct ((0 <=? b) && (b <=? 9999)) eqn:Rb.
  - apply andb_true_iff in Ra as [?%Z.leb_le ?%Z.leb_le].
    apply andb_true_iff in Rb as [?%Z.leb_le ?%Z.leb_le].
    apply (digitsW_inj 4); simpl; lia || exact E.
  - apply (f_equal (@length ascii)) in E.
    unfold ToZeroPaddedDecimalString in E.
    cbn [length] in E. rewrite !length_digitsW in E. lia.
  - apply (f_equal (@length ascii)) in E.
    unfold ToZeroPaddedDecimalString in E.
    cbn [length] in E. rewrite !length_digitsW in E. lia.
  - injection E as Hs Hp.
    apply padded_inj in Hp; [|lia|lia].
    destruct (a <? 0) eqn:Sa; destruct (b <? 0) eqn:Sb; try discriminate;
      rewrite ?Z.ltb_lt, ?Z.ltb_ge in *; lia.
Qed.

Lemma dateStringYear_inj (a b : Z) : dateStringYear a = dateStringYear b -> a = b.
Proof.
  unfold dateStringYear. intros E.
  destruct (a <? 0) eqn:Sa; destruct (b <? 0) eqn:Sb;
    rewrite ?Z.ltb_lt, ?Z.ltb_ge in *; simpl in E.
  - injection E as Hp. apply padded_inj in Hp; lia.
  - apply (f_equal (decimalValue 0)) in E.
    rewrite padded_value in E by lia. discriminate.
  - apply (f_equal (decimalValue 0)) in E.
    rewrite padded_value in E by lia. discriminate.
  - apply padded_inj in E; lia.
Qed.

Lemma isoYear_notT (y : Z) : Forall (fun c => c <> "T"%char) (isoYear y).
Proof.
  unfold isoYear, ToZeroPaddedDecimalString.
  destruct ((0 <=? y) && (y <=? 9999)); [apply digitsW_notT|].
  constructor; [destruct (y <? 0); discriminate | apply digitsW_notT].
Qed.

Lemma monthName_spec (m m' : Z) :
  1 <= m <= 12 -> 1 <= m' <= 12 ->
  length (monthName m) = 3%nat /\ (monthName m = monthName m' -> m = m').
Proof.
  intros H H'.
  assert (C : m = 1 \/ m = 2 \/ m = 3 \/ m = 4 \/ m = 5 \/ m = 6 \/ m = 7
              \/ m = 8 \/ m = 9 \/ m = 10 \/ m = 11 \/ m = 12) by lia.
  assert (C' : m' = 1 \/ m' = 2 \/ m' = 3 \/ m' = 4 \/ m' = 5 \/ m' = 6
               \/ m' = 7 \/ m' = 8 \/ m' = 9 \/ m' = 10 \/ m' = 11 \/ m' = 12)
    by lia.
  repeat (destruct C as [C | C]); rewrite C; (split; [reflexivity|]);
    repeat (destruct C' as [C' | C']); rewrite C';
    intros E; (reflexivity || discriminate E).
Qed.

Lemma length_weekdayName (day : Z) : length (weekdayName ((day + 4) mod 7)) = 3%nat.
Proof.
  pose proof (Z.mod_pos_bound (day + 4) 7 ltac:(lia)) as B.
  set (k := (day + 4) mod 7) in *.
  assert (C : k = 0 \/ k = 1 \/ k = 2 \/ k = 3 \/ k = 4 \/ k = 5 \/ k = 6) by lia.
  repeat (destruct C as [C | C]); rewrite C; reflexivity.
Qed.

Lemma two_digits (n : Z) : 1 <= n <= 31 -> 0 <= n < 10 ^ Z.of_nat 2.
Proof. simpl. lia. Qed.

Lemma cons_eq_tail {A : Type} (x y : A) (l l' : list A) :
  x :: l = y :: l' -> l = l'.
Proof. congruence. Qed.

Lemma isoDate_inj (a b : Z) : isoDate a = isoDate b -> a = b.
Proof.
  unfold isoDate. intros E.
  destruct (civilFromDays_spec a) as (y & m & d & Ea & Ra & Hm & Hd).
  destruct (civilFromDays_spec b) as (y' & m' & d' & Eb & Rb & Hm' & Hd').
  rewrite Ea, Eb in E.
  apply app_inj_2 in E as [Ey E];
    [| cbn [length]; rewrite !length_app; cbn [length];
       rewrite !length_digitsW; reflexivity].
  apply cons_eq_tail in E.
  apply app_inj_1 in E as [Em E]; [| rewrite !length_digitsW; reflexivity].
  apply cons_eq_tail in E.
  apply isoYear_inj in Ey.
  apply digitsW_inj in Em; [| apply two_digits; lia ..].
  apply digitsW_inj in E; [| apply two_digits; lia ..].
  congruence.
Qed.

Lemma dateText_inj (a b : Z) : dateText a = dateText b -> a = b.
Proof.
  unfold dateText. intros E.
  destruct (civilFromDays_spec a) as (y & m & d & Ea & Ra & Hm & Hd).
  destruct (civilFromDays_spec b) as (y' & m' & d' & Eb & Rb & Hm' & Hd').
  rewrite Ea, Eb in E.
  apply app_inj_1 in E as [_ E]; [| rewrite !length_weekdayName; reflexivity].
  apply cons_eq_tail in E.
  destruct (monthName_spec m m' Hm Hm') as [Lm Im].
  destruct (monthName_spec m' m Hm' Hm) as [Lm' _].
  apply app_inj_1 in E as [Em E]; [| congruence].
  apply cons_eq_tail in E.
  apply app_inj_1 in E as [Ed E]; [| rewrite !length_digitsW; reflexivity].
  apply cons_eq_tail in E.
  apply dateStringYear_inj in E.
  apply digitsW_inj in Ed; [| apply two_digits; lia ..].
  apply Im in Em. congruence.
Qed.

Lemma isoDate_notT (day : Z) : Forall (fun c => c <> "T"%char) (isoDate day).
Proof.
  unfold isoDate. destruct (civilFromDays day) as [[y m] d].
  rewrite Forall_app, Forall_cons, Forall_app, Forall_cons.
  repeat split; try discriminate; apply isoYear_notT || apply digitsW_notT.
Qed.

Lemma string_of_list_ascii_inj (l l' : list ascii) :
  string_of_list_ascii l = string_of_list_ascii l' -> l = l'.
Proof.
  intros E. apply (f_equal list_ascii_of_string) in E.
  now rewrite !list_ascii_of_string_of_list_ascii in E.
Qed.

(** The model on known values: 1793653200123 is 2026-11-02 21:00:00.123
    UTC, 18:00 in the zone UTC-3. *)
Example toISOString_2026 :
  toISOString 1793653200123 = "2026-11-02T21:00:00.123Z"%string.
Proof. vm_compute. reflexivity. Qed.

Example toDateString_2026 :
  toDateString (-180) 1793653200123 = "Mon Nov 02 2026"%string.
Proof. vm_compute. reflexivity. Qed.

Example toISOString_before_year_0 :
  toISOString (-62167219200001) = "-000001-12-31T23:59:59.999Z"%string.
Proof. vm_compute. reflexivity. Qed.

Example toDateString_before_year_0 :
  toDateString 0 (-62167219200001) = "Fri Dec 31 -0001"%string.
Proof. vm_compute. reflexivity. Qed.

Example toISOString_last_instant :
  toISOString 8640000000000000 = "+275760-09-13T00:00:00.000Z"%string.
Proof. vm_compute. reflexivity. Qed.

Example newDate_2026 : newDate (-180) 2026 10 2 9 0 = 1793620800000.
Proof. vm_compute. reflexivity. Qed.

Example newDate_two_digit_year :
  newDate 0 70 0 1 0 0 = 0.
Proof. vm_compute. reflexivity. Qed.

(** Two instants print the same [toDateString] exactly when they fall
    on the same local calendar day. *)
Lemma toDateString_eq_iff (tz a b : Z) :
  toDateString tz a = toDateString tz b <-> localDay tz a = localDay tz b.
Proof.
  unfold toDateString, localDay. split.
  - intros E. now apply dateText_inj, string_of_list_ascii_inj.
  - intros ->. reflexivity.
Qed.

End JSDateFacts.

Module JSStringFacts.

Import JSString.

Lemma split_cons (sep : ascii) (s : string) :
  exists h t, split sep s = h :: t.
Proof.
  destruct s as [|c r]; cbn [split]; [eauto|].
  destruct (Ascii.eqb c sep); [eauto|].
  destruct (split sep r); eauto.
Qed.

(** The first piece of a split is the text before the first separator. *)
Lemma split_first (sep : ascii) (p rest : list ascii) :
  Forall (fun c => c <> sep) p ->
  nth 0 (split sep (string_of_list_ascii (p ++ sep :: rest))) EmptyString
  = string_of_list_ascii p.
Proof.
  induction 1 as [|c p Hc _ IH]; cbn [app string_of_list_ascii split].
  - rewrite Ascii.eqb_refl. reflexivity.
  - destruct (Ascii.eqb_spec c sep) as [E|_]; [contradiction|].
    destruct (split_cons sep (string_of_list_ascii (p ++ sep :: rest)))
      as (h & t & E).
    rewrite E in IH |- *. cbn [nth] in *. now rewrite IH.
Qed.

End JSStringFacts.

(** * Properties of the availability computation *)

Module ScheduleGridFacts.

Import JSDate JSString ScheduleGrid JSDateFacts JSStringFacts Scenarios.

Lemma timeSlots_eq : timeSlots = businessHours.
Proof. vm_compute. reflexivity. Qed.

Lemma dateString_spec (t : Z) :
  dateString t = isoText (utcDay t).
Proof. unfold dateString, toISOString. apply split_first, isoDate_notT. Qed.

Lemma isoText_inj (a b : Z) : isoText a = isoText b -> a = b.
Proof. intros E. now apply isoDate_inj, string_of_list_ascii_inj. Qed.

(** Two instants have the same [dateString] exactly when they fall on
    the same UTC calendar day. *)
Lemma dateString_eq_iff (a b : Z) :
  dateString a = dateString b <-> utcDay a = utcDay b.
Proof.
  rewrite !dateString_spec. split.
  - apply isoText_inj.
  - intros ->. reflexivity.
Qed.

(** [isToday] compares local calendar days. *)
Lemma isToday_iff (tz date today : Z) :
  isToday tz date today = true <-> localDay tz date = localDay tz today.
Proof. unfold isToday. rewrite String.eqb_eq. apply toDateString_eq_iff. Qed.

Lemma isBooked_iff (apps : list Appointment) (ds tm : string) :
  isBooked apps ds tm = true
  <-> exists app, In app apps /\ Doc.date app = ds /\ Doc.time app = tm.
Proof.
  unfold isBooked. rewrite existsb_exists. split.
  - intros (app & Hin & H). apply andb_true_iff in H as [H1 H2].
    apply String.eqb_eq in H1, H2. eauto.
  - intros (app & Hin & H1 & H2). exists app. split; [exact Hin|].
    apply andb_true_iff. now rewrite !String.eqb_eq.
Qed.

Lemma In_getAvailableSlots (tz : Z) (apps : list Appointment) (date now : Z)
    (tm : string) :
  In tm (getAvailableSlots tz apps date now)
  <-> In tm businessHours /\ slotFree tz apps date now tm = true.
Proof. unfold getAvailableSlots. now rewrite filter_In, timeSlots_eq. Qed.

Lemma filter_StronglySorted {A : Type} (R : A -> A -> Prop) (f : A -> bool)
    (l : list A) :
  StronglySorted R l -> StronglySorted R (List.filter f l).
Proof.
  induction 1 as [|x l Hs IH Hx]; cbn [List.filter]; [constructor|].
  destruct (f x); [|exact IH].
  constructor; [exact IH|].
  rewrite List.Forall_forall in *. intros y Hy.
  apply filter_In in Hy as [Hy _]. auto.
Qed.

Lemma businessHours_sorted : StronglySorted startsBefore businessHours.
Proof.
  unfold businessHours.
  repeat (constructor; [| repeat constructor; unfold startsBefore; simpl; lia]).
  constructor.
Qed.

Lemma businessHours_NoDup : List.NoDup businessHours.
Proof.
  unfold businessHours.
  repeat (apply List.NoDup_cons; [simpl; intuition discriminate|]).
  apply List.NoDup_nil.
Qed.

(** A label of the fixed set reads as an hour from 9 to 17 and minute 0. *)
Lemma businessHours_parse (tm : string) :
  In tm businessHours ->
  exists h, 9 <= h <= 17 /\ tm = slotLabel h
            /\ map Number (split ":" tm) = [Some h; Some 0].
Proof.
  unfold businessHours. simpl.
  intros H. repeat (destruct H as [<- | H]); [..|contradiction].
  - exists 9. now vm_compute.
  - exists 10. now vm_compute.
  - exists 11. now vm_compute.
  - exists 12. now vm_compute.
  - exists 13. now vm_compute.
  - exists 14. now vm_compute.
  - exists 15. now vm_compute.
  - exists 16. now vm_compute.
  - exists 17. now vm_compute.
Qed.

Lemma daysFromCivil_day (y m d : Z) :
  daysFromCivil y m 1 + d - 1 = daysFromCivil y m d.
Proof. unfold daysFromCivil. lia. Qed.

(** Outside the years 0 to 99, building a date from the local fields of
    [t] and a wall-clock hour and minute gives that wall-clock time on
    the local day of [t]. *)
Lemma newDate_local (tz t h m : Z) :
  ~ 0 <= getFullYear tz t <= 99 ->
  newDate tz (getFullYear tz t) (getMonth tz t) (getDate tz t) h m
  = wallClock tz (localDay tz t) h m.
Proof.
  unfold newDate, getFullYear, getMonth, getDate, YearFromTime,
    MonthFromTime, DateFromTime, localDay.
  destruct (civilFromDays_spec (Day (LocalTime tz t)))
    as (y & mo & d & E & R & Hm & Hd).
  rewrite E. intros Hy.
  replace ((0 <=? y) && (y <=? 99)) with false
    by (symmetry; apply andb_false_iff; rewrite !Z.leb_gt; lia).
  unfold wallClock, MakeDay, UTC, MakeDate, MakeTime.
  rewrite (Z.div_small (mo - 1) 12), (Z.mod_small (mo - 1) 12) by lia.
  replace (mo - 1 + 1) with mo by lia.
  rewrite Z.add_0_r, daysFromCivil_day, R. lia.
Qed.

Lemma slotFree_booked (tz : Z) (apps : list Appointment) (date now : Z)
    (tm : string) :
  isBooked apps (dateString date) tm = true ->
  slotFree tz apps date now tm = false.
Proof. unfold slotFree. now intros ->. Qed.

Lemma slotFree_other_day (tz : Z) (apps : list Appointment) (date now : Z)
    (tm : string) :
  localDay tz date <> localDay tz now ->
  slotFree tz apps date now tm = negb (isBooked apps (dateString date) tm).
Proof.
  intros H. unfold slotFree.
  destruct (isBooked apps (dateString date) tm); [reflexivity|].
  destruct (isToday tz date now) eqn:E; [|reflexivity].
  apply isToday_iff in E. contradiction.
Qed.

Lemma localDay_from_midnight (tz now t : Z) :
  setHours0 tz now <= t -> localDay tz now <= localDay tz t.
Proof.
  unfold setHours0, UTC, MakeDate, MakeTime, localDay, Day, LocalTime.
  generalize (tz * msPerMinute). intros off H.
  apply Z.div_le_lower_bound; [reflexivity|].
  revert H. generalize ((now + off) / msPerDay). intros q H.
  unfold msPerDay, msPerHour, msPerMinute in *. lia.
Qed.

(** [handleDateChange] never selects a day before today. *)
Lemma handleDateChange_not_past (tz days now : Z) (g : State) :
  selectedDate (handleDateChange tz days now g) = selectedDate g
  \/ localDay tz now <= localDay tz (selectedDate (handleDateChange tz days now g)).
Proof.
  unfold handleDateChange. cbv zeta.
  generalize (setDate tz (selectedDate g) (getDate tz (selectedDate g) + days)).
  intros newDate. unfold getTime.
  destruct (Z.ltb_spec newDate (setHours0 tz now)) as [_|E]; [now left|right].
  exact (localDay_from_midnight tz now newDate E).
Qed.

(** C6.  For every date, cache of appointments and clock, the slots
    [getAvailableSlots] returns are values of the fixed hourly set
    09:00 ... 17:00, in strictly ascending order of their start, without
    duplicates: at most nine, each starting on the hour from 9 and
    before 18. *)
Theorem available_slots_hourly_ascending (tz : Z) (apps : list Appointment)
    (date now : Z) :
  let out := getAvailableSlots tz apps date now in
  (forall tm, In tm out -> In tm businessHours)
  /\ StronglySorted startsBefore out
  /\ List.NoDup out
  /\ (length out <= 9)%nat
  /\ (forall tm, In tm out ->
        exists h, minuteOfDay tm = Some (h * 60) /\ 9 <= h < 18).
Proof.
  cbv zeta. unfold getAvailableSlots. rewrite timeSlots_eq.
  split; [intros tm H; now apply filter_In in H|].
  split; [apply filter_StronglySorted, businessHours_sorted|].
  split; [apply List.NoDup_filter, businessHours_NoDup|].
  split; [apply (List.filter_length_le _ businessHours)|].
  intros tm H. apply filter_In in H as [H _].
  destruct (businessHours_parse tm H) as (h & Hh & _ & P).
  exists h. unfold minuteOfDay. rewrite P. cbn [nth].
  split; [f_equal; lia | lia].
Qed.

(** C5.  When the cache holds a record whose [date] is the day string of
    the queried date and whose [time] is [t], [getAvailableSlots] for
    that date does not return [t]. *)
Theorem booked_slot_excluded (tz : Z) (apps : list Appointment) (d now : Z)
    (app : Appointment) :
  In app apps -> Doc.date app = dateString d ->
  ~ In (Doc.time app) (getAvailableSlots tz apps d now).
Proof.
  intros Hin Hd H. apply In_getAvailableSlots in H as [_ H].
  rewrite slotFree_booked in H; [discriminate|].
  apply isBooked_iff. eauto.
Qed.

(** C4.  When the queried date is on the current local calendar day,
    every slot [getAvailableSlots] returns has a start instant, the
    [slotTime] the code builds, strictly more than 60 minutes after the
    clock; that instant is the wall-clock hour of the label on that
    day (for a year outside 0..99, which the [Date] constructor reads
    as 1900 + year). *)
Theorem today_slots_after_lead_time (tz : Z) (apps : list Appointment)
    (date now : Z) (tm : string) :
  localDay tz date = localDay tz now ->
  In tm (getAvailableSlots tz apps date now) ->
  exists st h,
    slotTime tz date tm = Some st
    /\ now + 60 * msPerMinute < st
    /\ tm = slotLabel h
    /\ (~ 0 <= getFullYear tz date <= 99 ->
        st = wallClock tz (localDay tz now) h 0).
Proof.
  intros Hday H. apply In_getAvailableSlots in H as [Hb H].
  unfold slotFree in H.
  destruct (isBooked apps (dateString date) tm); [discriminate|].
  apply isToday_iff in Hday as Ht. rewrite Ht in H.
  destruct (businessHours_parse tm Hb) as (h & _ & Hl & P).
  unfold slotTime in *. rewrite P in *. cbn [nth] in *.
  eexists _, h. split; [reflexivity|].
  apply Z.ltb_lt in H.
  split; [unfold msPerMinute; lia|].
  split; [exact Hl|].
  intros Hy. unfold getTime. rewrite newDate_local by exact Hy. now rewrite Hday.
Qed.

(** C3, as the code has it.  For a date on a local calendar day before
    today's, [getAvailableSlots] returns every slot of the fixed set
    that no cached record books for the date's day string: no lead-time
    rule applies and nothing is cleared.  Past days are kept out by the
    navigation: [handleDateChange] leaves the selected date as it is
    or selects a day that is not before today. *)
Theorem past_day_slots_unbooked (tz : Z) (apps : list Appointment)
    (date now : Z) :
  localDay tz date < localDay tz now ->
  getAvailableSlots tz apps date now
  = List.filter (fun tm => negb (isBooked apps (dateString date) tm))
                businessHours
  /\ forall days g,
       selectedDate (handleDateChange tz days now g) = selectedDate g
       \/ localDay tz now
          <= localDay tz (selectedDate (handleDateChange tz days now g)).
Proof.
  intros H. split; [|intros; apply handleDateChange_not_past].
  unfold getAvailableSlots. rewrite timeSlots_eq.
  apply filter_ext. intros tm. apply slotFree_other_day. lia.
Qed.

Lemma isBooked_cons (app : Appointment) (apps : list Appointment)
    (ds tm : string) :
  isBooked (app :: apps) ds tm
  = (String.eqb (Doc.date app) ds && String.eqb (Doc.time app) tm)
    || isBooked apps ds tm.
Proof. reflexivity. Qed.

Lemma today_slots_after_lead_time_witness :
  exists st h,
    slotTime (-180) morning "10:00" = Some st
    /\ morning + 60 * msPerMinute < st
    /\ "10:00"%string = slotLabel h
    /\ (~ 0 <= getFullYear (-180) morning <= 99 ->
        st = wallClock (-180) (localDay (-180) morning) h 0).
Proof.
  apply (today_slots_after_lead_time (-180) [] morning morning "10:00").
  - reflexivity.
  - vm_compute. now left.
Defined.

Lemma booked_slot_excluded_witness :
  ~ In "10:00"%string (getAvailableSlots (-180) [bookedAt10] morning morning).
Proof.
  apply (booked_slot_excluded (-180) [bookedAt10] morning morning bookedAt10).
  - now left.
  - vm_compute. reflexivity.
Defined.

(** C3 as stated fails: for yesterday's date and an empty cache the
    result is the whole fixed set, not the empty sequence. *)
Lemma past_day_offers_slots :
  localDay (-180) yesterdayMorning < localDay (-180) morning
  /\ getAvailableSlots (-180) [] yesterdayMorning morning = businessHours
  /\ getAvailableSlots (-180) [] yesterdayMorning morning <> [].
Proof. vm_compute. repeat split; discriminate. Qed.

Lemma past_day_slots_unbooked_witness :
  getAvailableSlots (-180) [bookedAt10] yesterdayMorning morning
  = List.filter
      (fun tm => negb (isBooked [bookedAt10] (dateString yesterdayMorning) tm))
      businessHours
  /\ forall days g,
       selectedDate (handleDateChange (-180) days morning g) = selectedDate g
       \/ localDay (-180) morning
          <= localDay (-180)
               (selectedDate (handleDateChange (-180) days morning g)).
Proof.
  apply (past_day_slots_unbooked (-180) [bookedAt10] yesterdayMorning morning).
  vm_compute. reflexivity.
Defined.

(** C10.  The [date] of a committed record is the ISO text of the UTC
    day of the selected [Date] value, and the booked-slot match of
    [getAvailableSlots] compares it with the ISO text of the UTC day of
    the queried value: the record removes its slot from the result for
    the values on its UTC day and changes nothing for any other value.
    [isToday] holds exactly when the two values fall on the same local
    day.  So for a clock whose local day is not its UTC day, the grid
    opened at that instant applies the lead-time rule (the value is on
    today's local day) while matching bookings under a day string that
    is not the one of that local day. *)
Theorem booked_day_utc_lead_day_local (tz : Z) (p : Props) (g : State)
    (tm newId : string) (serverTime : Z) (apps : list Appointment)
    (date now : Z) :
  let rec := Booking.stored newId serverTime (newAppointment p g tm) in
  Doc.date rec = isoText (utcDay (selectedDate g))
  /\ dateString date = isoText (utcDay date)
  /\ (utcDay date = utcDay (selectedDate g) ->
      ~ In tm (getAvailableSlots tz (rec :: apps) date now))
  /\ (utcDay date <> utcDay (selectedDate g) ->
      getAvailableSlots tz (rec :: apps) date now
      = getAvailableSlots tz apps date now)
  /\ (isToday tz date now = true <-> localDay tz date = localDay tz now)
  /\ (localDay tz now <> utcDay now ->
      isToday tz (selectedDate (initialState now)) now = true
      /\ dateString (selectedDate (initialState now))
         <> isoText (localDay tz now)).
Proof.
  cbv zeta.
  split; [apply dateString_spec|]. split; [apply dateString_spec|].
  split; [|split; [|split; [apply isToday_iff|]]].
  - intros E H. apply In_getAvailableSlots in H as [_ H].
    rewrite slotFree_booked in H; [discriminate|].
    rewrite isBooked_cons. apply orb_true_iff. left.
    apply andb_true_iff. rewrite !String.eqb_eq. cbn.
    split; [now apply dateString_eq_iff | reflexivity].
  - intros N. unfold getAvailableSlots. apply filter_ext. intros t.
    unfold slotFree. rewrite isBooked_cons.
    replace (String.eqb _ (dateString date)) with false; [reflexivity|].
    symmetry. apply String.eqb_neq. cbn. intros E.
    apply dateString_eq_iff in E. congruence.
  - intros N. cbn [selectedDate initialState].
    split; [now apply isToday_iff|].
    rewrite dateString_spec. intros E. apply isoText_inj in E. congruence.
Qed.

Lemma booked_day_utc_lead_day_local_witness :
  localDay (-180) lateEvening <> utcDay lateEvening
  /\ isToday (-180) (selectedDate (initialState lateEvening)) lateEvening = true
  /\ dateString (selectedDate (initialState lateEvening)) = "2026-11-03"%string
  /\ isoText (localDay (-180) lateEvening) = "2026-11-02"%string.
Proof.
  assert (N : localDay (-180) lateEvening <> utcDay lateEvening)
    by (vm_compute; discriminate).
  split; [exact N|].
  split; [|split; vm_compute; reflexivity].
  apply (booked_day_utc_lead_day_local (-180)
           {| userId := EmptyString;
              userProfile := {| name := EmptyString; whatsapp := EmptyString |} |}
           (initialState lateEvening) "17:00" "doc" 0 [] lateEvening
           lateEvening).
  exact N.
Defined.

End ScheduleGridFacts.

(** * Properties of the booking flow *)

Module BookingFacts.

Import JSDate ScheduleGrid Booking Scenarios.

Lemma lookup_step_target (w : World) (e : Event) (s : Session) :
  sessions w !! target e = Some s ->
  sessions (step w e) !! target e = Some (stepSession (store w) e s).
Proof.
  intros H. unfold step. cbn [sessions]. rewrite H.
  apply list_lookup_insert_eq. eapply lookup_lt_Some, H.
Qed.

Lemma lookup_step_other (w : World) (e : Event) (j : nat) :
  j <> target e -> sessions (step w e) !! j = sessions w !! j.
Proof.
  intros H. unfold step. cbn [sessions].
  destruct (sessions w !! target e); [|reflexivity].
  now apply list_lookup_insert_ne.
Qed.

Lemma clickConfirm_disabled (paymentOk : bool) (s : Session) :
  isBooking (grid s) = true -> clickConfirm paymentOk s = s.
Proof.
  intros H. unfold clickConfirm, confirmEnabled. rewrite H.
  destruct (selectedTime (grid s)) as [[|c r]|]; cbn [negb];
    now rewrite andb_false_r.
Qed.

Lemma oneInFlight_clickConfirm (paymentOk : bool) (s : Session) :
  oneInFlight s -> oneInFlight (clickConfirm paymentOk s).
Proof.
  intros [Hl Hb]. unfold clickConfirm.
  destruct (mounted s && confirmEnabled (grid s)) eqn:E; [|now split].
  apply andb_true_iff in E as [_ E]. unfold confirmEnabled in E.
  unfold handlePaymentAndBooking.
  destruct (selectedTime (grid s)) as [[|c r]|]; try discriminate.
  apply negb_true_iff in E.
  assert (N : inFlight s = []).
  { destruct (inFlight s); [reflexivity|].
    rewrite Hb in E; [discriminate|congruence]. }
  destruct (negb paymentOk); unfold oneInFlight; cbn; rewrite N; cbn.
  - split; [lia|congruence].
  - split; [lia|reflexivity].
Qed.

Lemma oneInFlight_settle (k : nat) (docRefId : option string) (s : Session) :
  oneInFlight s -> oneInFlight (settle k docRefId s).
Proof.
  intros [Hl Hb]. unfold settle.
  destruct (inFlight s !! k) as [app|] eqn:E; [|now split].
  assert (N : delete k (inFlight s) = []).
  { apply nil_length_inv.
    rewrite length_delete by (rewrite E; eauto). lia. }
  destruct docRefId; unfold oneInFlight; cbn; rewrite N; cbn;
    (split; [lia|congruence]).
Qed.

Lemma oneInFlight_stepSession (docs : list Appointment) (e : Event)
    (s : Session) :
  oneInFlight s -> oneInFlight (stepSession docs e s).
Proof.
  intros H. destruct e; cbn [stepSession].
  - destruct (mounted s); exact H.
  - destruct (mounted s && prevEnabled (tz s) now (grid s)); [|exact H].
    unfold handleDateChange, oneInFlight in *. cbn.
    destruct (_ <? _); exact H.
  - destruct (mounted s); [|exact H].
    unfold handleDateChange, oneInFlight in *. cbn.
    destruct (_ <? _); exact H.
  - destruct (mounted s && slotRendered _ _); exact H.
  - now apply oneInFlight_clickConfirm.
  - exact H.
  - now apply oneInFlight_settle.
Qed.

Lemma oneInFlight_step (w : World) (e : Event) :
  Forall oneInFlight (sessions w) -> Forall oneInFlight (sessions (step w e)).
Proof.
  rewrite !Forall_lookup. intros H j s Hj.
  destruct (Nat.eq_dec j (target e)) as [->|Hne].
  - destruct (sessions w !! target e) as [s0|] eqn:E.
    + rewrite (lookup_step_target w e s0 E) in Hj. injection Hj as <-.
      apply oneInFlight_stepSession. eapply H, E.
    + unfold step in Hj. cbn [sessions] in Hj. rewrite E in Hj. congruence.
  - rewrite lookup_step_other in Hj by exact Hne. eapply H, Hj.
Qed.

Lemma oneInFlight_run (events : list Event) :
  forall w, Forall oneInFlight (sessions w) ->
  Forall oneInFlight (sessions (run w events)).
Proof.
  induction events as [|e events IH]; intros w H; [exact H|].
  apply IH, oneInFlight_step, H.
Qed.

Lemma step_ignored (w : World) (e : Event) (s : Session) :
  sessions w !! target e = Some s ->
  stepSession (store w) e s = s -> stepStore w e = store w ->
  step w e = w.
Proof.
  intros H Hs Hst. unfold step. rewrite H, Hs, Hst, list_insert_id by exact H.
  now destruct w.
Qed.

Lemma slotsUnique_addDoc (docs : list Appointment) (newId : string) (ts : Z)
    (app : Appointment) :
  slotsUnique (addDoc docs newId ts app)
  <-> slotsUnique docs /\ ~ In (Doc.slotKey app) (map Doc.slotKey docs).
Proof.
  unfold slotsUnique, addDoc. rewrite map_app. cbn [map].
  change (Doc.slotKey (stored newId ts app)) with (Doc.slotKey app).
  split.
  - intros H.
    apply (Permutation_NoDup (l' := Doc.slotKey app :: map Doc.slotKey docs))
      in H; [|symmetry; apply Permutation_cons_append].
    apply List.NoDup_cons_iff in H. tauto.
  - intros [H1 H2].
    apply (Permutation_NoDup (l := Doc.slotKey app :: map Doc.slotKey docs));
      [apply Permutation_cons_append|].
    now apply List.NoDup_cons.
Qed.

(** C7.  In every run from a world with no write in flight, a session
    has at most one [addDoc] in flight, and only while [isBooking] is
    set; and while [isBooking] is set a click on the confirm button is
    ignored: the world, and with it the set of writes in flight, stays
    as it is. *)
Theorem one_commit_per_attempt (w : World) (events : list Event) (i : nat)
    (s : Session) :
  Forall (fun s0 => inFlight s0 = []) (sessions w) ->
  sessions (run w events) !! i = Some s ->
  (length (inFlight s) <= 1)%nat
  /\ (inFlight s <> [] -> isBooking (grid s) = true)
  /\ (isBooking (grid s) = true ->
      forall paymentOk,
        step (run w events) (ConfirmClick i paymentOk) = run w events).
Proof.
  intros H0 Hs.
  assert (Inv : Forall oneInFlight (sessions (run w events))).
  { apply oneInFlight_run. eapply Forall_impl; [exact H0|].
    intros s0 E. unfold oneInFlight. rewrite E. cbn. split; [lia|congruence]. }
  rewrite Forall_lookup in Inv. destruct (Inv i s Hs) as [Hl Hb].
  split; [exact Hl|]. split; [exact Hb|].
  intros B paymentOk.
  apply (step_ignored _ (ConfirmClick i paymentOk) s Hs); [|reflexivity].
  now apply clickConfirm_disabled.
Qed.

Lemma one_commit_per_attempt_witness :
  step (run twoClients aliceCommits)
       (ConfirmClick 0 true)
  = run twoClients aliceCommits.
Proof.
  eapply (one_commit_per_attempt twoClients aliceCommits 0%nat).
  - repeat constructor.
  - vm_compute. reflexivity.
  - reflexivity.
Defined.

(** C9.  When the confirm button is clicked and the payment dialog
    ([window.confirm]) is answered with no, the attempt has failed
    with the payment text as its error, the collection is unchanged,
    and no [addDoc] was issued nor [onBookingConfirmed] called. *)
Theorem declined_payment_writes_nothing (w : World) (i : nat) (s : Session) :
  sessions w !! i = Some s ->
  mounted s = true -> confirmEnabled (grid s) = true ->
  store (step w (ConfirmClick i false)) = store w
  /\ exists s', sessions (step w (ConfirmClick i false)) !! i = Some s'
       /\ failedWith paymentMessage (grid s')
       /\ inFlight s' = inFlight s /\ confirmed s' = confirmed s.
Proof.
  intros Hs Hm He. split; [reflexivity|].
  eexists. split; [apply (lookup_step_target w (ConfirmClick i false) s Hs)|].
  cbn [stepSession]. unfold clickConfirm. rewrite Hm, He. cbn [andb].
  unfold confirmEnabled in He. unfold handlePaymentAndBooking.
  destruct (selectedTime (grid s)) as [[|c r]|]; try discriminate.
  cbn. apply negb_true_iff in He.
  repeat split; [exact He | discriminate | apply app_nil_r].
Qed.

Lemma declined_payment_writes_nothing_witness :
  store (step (run twoClients [Snapshot 0; SelectTime 0 "14:00" morning])
              (ConfirmClick 0 false)) = [].
Proof.
  eapply eq_trans.
  - eapply (declined_payment_writes_nothing
              (run twoClients [Snapshot 0; SelectTime 0 "14:00" morning])
              0%nat).
    + vm_compute. reflexivity.
    + reflexivity.
    + reflexivity.
  - reflexivity.
Defined.

(** C1 as stated fails: after the race both attempts are committed and
    the collection holds two records for 2026-11-02 14:00. *)
Lemma double_booking_committed :
  map Doc.slotKey (store (run twoClients raceFor14))
  = [("2026-11-02", "14:00"); ("2026-11-02", "14:00")]%string
  /\ ~ slotsUnique (store (run twoClients raceFor14))
  /\ map (fun s => (length (confirmed s), error (grid s)))
         (sessions (run twoClients raceFor14))
     = [(1%nat, EmptyString); (1%nat, EmptyString)].
Proof.
  split; [vm_compute; reflexivity|].
  split; [|vm_compute; reflexivity].
  unfold slotsUnique.
  replace (map Doc.slotKey (store (run twoClients raceFor14)))
    with [("2026-11-02", "14:00"); ("2026-11-02", "14:00")]%string
    by (vm_compute; reflexivity).
  intros H. apply List.NoDup_cons_iff in H as [H _]. apply H. now left.
Qed.

Lemma step_accepted (w : World) (i k : nat) (s : Session) (app : Appointment)
    (newId : string) (serverTime : Z) :
  sessions w !! i = Some s -> inFlight s !! k = Some app ->
  store (step w (AddDocSettles i k (Some (newId, serverTime))))
  = addDoc (store w) newId serverTime app
  /\ sessions (step w (AddDocSettles i k (Some (newId, serverTime)))) !! i
     = Some (settle k (Some newId) s).
Proof.
  intros Hs Hk. split.
  - unfold step, stepStore. cbn [store]. now rewrite Hs, Hk.
  - exact (lookup_step_target
             w (AddDocSettles i k (Some (newId, serverTime))) s Hs).
Qed.

Lemma settle_accepted (k : nat) (newId : string) (s : Session)
    (app : Appointment) :
  inFlight s !! k = Some app ->
  confirmed (settle k (Some newId) s) = confirmed s ++ [withId newId app]
  /\ error (grid (settle k (Some newId) s)) = error (grid s).
Proof. intros Hk. unfold settle. rewrite Hk. cbn. split; reflexivity. Qed.

(** C1, as the code has it.  A settled [addDoc] that the store accepted
    is always committed: the collection gains the document and
    [onBookingConfirmed] is called, whatever the collection holds.  The
    slots of the collection are pairwise distinct afterwards exactly
    when they were before and no record occupied the new record's
    (date, time) at the write.  When the write of another session for
    the same (date, time) settles next, it is committed and confirmed
    as well and the collection holds both records. *)
Theorem commit_unique_iff_slot_free (w : World) (i k : nat) (s : Session)
    (app : Appointment) (newId : string) (serverTime : Z) :
  sessions w !! i = Some s -> inFlight s !! k = Some app ->
  let w' := step w (AddDocSettles i k (Some (newId, serverTime))) in
  store w' = store w ++ [stored newId serverTime app]
  /\ (exists s', sessions w' !! i = Some s'
        /\ confirmed s' = confirmed s ++ [withId newId app]
        /\ error (grid s') = error (grid s))
  /\ (slotsUnique (store w')
      <-> slotsUnique (store w)
          /\ ~ In (Doc.slotKey app) (map Doc.slotKey (store w)))
  /\ (forall j k' sj app' newId' serverTime',
        j <> i -> sessions w !! j = Some sj -> inFlight sj !! k' = Some app' ->
        Doc.slotKey app' = Doc.slotKey app ->
        let w'' := step w' (AddDocSettles j k' (Some (newId', serverTime'))) in
        store w''
        = store w ++ [stored newId serverTime app;
                      stored newId' serverTime' app']
        /\ ~ slotsUnique (store w'')
        /\ exists sj', sessions w'' !! j = Some sj'
             /\ confirmed sj' = confirmed sj ++ [withId newId' app']
             /\ error (grid sj') = error (grid sj)).
Proof.
  intros Hs Hk w'. subst w'.
  destruct (step_accepted w i k s app newId serverTime Hs Hk) as [St Ss].
  destruct (settle_accepted k newId s app Hk) as [Sc Se].
  split; [exact St|]. split; [eauto|].
  split; [rewrite St; apply slotsUnique_addDoc|].
  intros j k' sj app' newId' serverTime' Hj Hsj Hk' Hkey w''. subst w''.
  assert (Hsj' : sessions (step w (AddDocSettles i k (Some (newId, serverTime))))
                   !! j = Some sj).
  { rewrite lookup_step_other by exact Hj. exact Hsj. }
  destruct (step_accepted _ j k' sj app' newId' serverTime' Hsj' Hk')
    as [St' Ss'].
  destruct (settle_accepted k' newId' sj app' Hk') as [Sc' Se'].
  split; [|split; [|eauto]].
  - rewrite St', St. unfold addDoc. now rewrite <- app_assoc.
  - rewrite St', St. rewrite slotsUnique_addDoc. intros [_ N]. apply N.
    unfold addDoc. rewrite map_app, in_app_iff. right. left.
    symmetry. exact Hkey.
Qed.

Lemma commit_unique_iff_slot_free_witness :
  slotsUnique
    (store (step (run twoClients aliceCommits)
                 (AddDocSettles 0 0 (Some ("doc-1"%string, morning + 1000)))))
  <-> slotsUnique (store (run twoClients aliceCommits))
      /\ ~ In (Doc.slotKey aliceRecord)
             (map Doc.slotKey (store (run twoClients aliceCommits))).
Proof.
  assert (Hs : sessions (run twoClients aliceCommits) !! 0%nat
               = Some aliceCommitting) by (vm_compute; reflexivity).
  assert (Hk : inFlight aliceCommitting !! 0%nat = Some aliceRecord)
    by (vm_compute; reflexivity).
  exact (proj1 (proj2 (proj2
           (commit_unique_iff_slot_free
              (run twoClients aliceCommits) 0%nat 0%nat aliceCommitting
              aliceRecord "doc-1" (morning + 1000) Hs Hk)))).
Defined.

(** C2 as stated fails: bruno commits 14:00 after alice's record for it
    is in the collection; the write is applied, his attempt is
    confirmed with no error, and the collection holds both records. *)
Lemma taken_slot_committed :
  let w := run twoClients lateClient in
  let w' := step w (AddDocSettles 1 0 (Some ("doc-2"%string, morning + 2000))) in
  map Doc.slotKey (store w) = [("2026-11-02", "14:00")]%string
  /\ map Doc.slotKey (store w')
     = [("2026-11-02", "14:00"); ("2026-11-02", "14:00")]%string
  /\ map (fun s => (length (confirmed s), error (grid s), isBooking (grid s)))
         (sessions w')
     = [(1%nat, EmptyString, false); (1%nat, EmptyString, false)].
Proof. vm_compute. repeat split. Qed.

(** C2, as the code has it.  A commit for a slot that a record of the
    collection already occupies is not told apart from any other:
    when the store accepts the write the record is added next to the
    earlier one and the attempt is confirmed; the attempt fails only
    when the store rejects the write, with the store's error text, no
    record written and nothing confirmed.  Either way the settled call
    leaves the writes in flight and starts no new one. *)
Theorem commit_on_taken_slot (w : World) (i k : nat) (s : Session)
    (app : Appointment) (result : option (string * Z)) :
  sessions w !! i = Some s -> inFlight s !! k = Some app ->
  In (Doc.slotKey app) (map Doc.slotKey (store w)) ->
  let w' := step w (AddDocSettles i k result) in
  exists s', sessions w' !! i = Some s'
    /\ inFlight s' = delete k (inFlight s)
    /\ isBooking (grid s') = false
    /\ match result with
       | Some (newId, serverTime) =>
           store w' = store w ++ [stored newId serverTime app]
           /\ ~ slotsUnique (store w')
           /\ confirmed s' = confirmed s ++ [withId newId app]
           /\ error (grid s') = error (grid s)
       | None =>
           store w' = store w
           /\ failedWith storeMessage (grid s')
           /\ confirmed s' = confirmed s
       end.
Proof.
  intros Hs Hk Hocc w'. subst w'.
  assert (St : store (step w (AddDocSettles i k result))
               = match result with
                 | Some (newId, serverTime) =>
                     addDoc (store w) newId serverTime app
                 | None => store w
                 end).
  { unfold step, stepStore. cbn [store].
    destruct result as [[? ?]|]; [|reflexivity]. now rewrite Hs, Hk. }
  rewrite St. clear St.
  eexists. split;
    [apply (lookup_step_target w (AddDocSettles i k result) s Hs)|].
  cbn [stepSession]. unfold settle. rewrite Hk.
  destruct result as [[newId serverTime]|].
  - cbn -[addDoc]. split; [reflexivity|]. split; [reflexivity|].
    split; [reflexivity|]. split; [|split; reflexivity].
    rewrite slotsUnique_addDoc. tauto.
  - cbn. split; [reflexivity|]. split; [reflexivity|].
    split; [reflexivity|]. split; [|apply app_nil_r].
    repeat split. discriminate.
Qed.

Lemma commit_on_taken_slot_witness :
  exists s',
    sessions (step (run twoClients lateClient) (AddDocSettles 1 0 None))
      !! 1%nat = Some s'
    /\ inFlight s' = delete 0%nat (inFlight brunoCommitting)
    /\ isBooking (grid s') = false
    /\ store (step (run twoClients lateClient) (AddDocSettles 1 0 None))
       = store (run twoClients lateClient)
    /\ failedWith storeMessage (grid s')
    /\ confirmed s' = confirmed brunoCommitting.
Proof.
  apply (commit_on_taken_slot (run twoClients lateClient) 1%nat 0%nat
           brunoCommitting brunoRecord None).
  - vm_compute. reflexivity.
  - vm_compute. reflexivity.
  - vm_compute. now left.
Defined.

End BookingFacts.

(** * Properties of the dashboard's list *)

Module DashboardFacts.

Import Dashboard Scenarios.

Section SortFacts.

Context {A : Type} (comparator : A -> A -> option Z).

Lemma insertSorted_perm (x : A) (l : list A) :
  Permutation (insertSorted comparator x l) (x :: l).
Proof.
  induction l as [|y r IH]; cbn [insertSorted]; [reflexivity|].
  destruct (notAfter comparator x y); [reflexivity|].
  rewrite IH. apply perm_swap.
Qed.

Lemma sort_perm (l : list A) : Permutation (sort comparator l) l.
Proof.
  induction l as [|x l IH]; cbn [sort fold_right]; [reflexivity|].
  fold (sort comparator l). rewrite insertSorted_perm. now apply perm_skip.
Qed.

End SortFacts.

Lemma notAfter_byDateTime (x y : Upcoming) (a b : Z) :
  dateTime x = Some a -> dateTime y = Some b ->
  notAfter byDateTime x y = (a <=? b).
Proof.
  intros Hx Hy. unfold notAfter, byDateTime. rewrite Hx, Hy.
  destruct (Z.leb_spec (a - b) 0), (Z.leb_spec a b); reflexivity || lia.
Qed.

Lemma insertSorted_sorted (x : Upcoming) (l : list Upcoming) :
  hasTime x -> Forall hasTime l ->
  StronglySorted startsNoLater l ->
  StronglySorted startsNoLater (insertSorted byDateTime x l).
Proof.
  intros [a Hx] Hl Hs. induction Hs as [|y r Hs IH Hy]; cbn [insertSorted].
  - repeat constructor.
  - apply Forall_cons in Hl as [[b Hb] Hl].
    rewrite (notAfter_byDateTime x y a b Hx Hb).
    destruct (Z.leb_spec a b) as [Hab|Hab].
    + constructor; [now constructor|].
      assert (Hxy : startsNoLater x y)
        by (unfold startsNoLater; now rewrite Hx, Hb).
      apply List.Forall_cons; [exact Hxy|].
      rewrite List.Forall_forall in *. intros z Hz.
      specialize (Hy z Hz). unfold startsNoLater in *.
      rewrite Hx, Hb in *. destruct (dateTime z); [lia|contradiction].
    + constructor; [now apply IH|].
      rewrite List.Forall_forall in *. intros z Hz.
      apply (Permutation_in _ (insertSorted_perm byDateTime x r)) in Hz.
      destruct Hz as [<-|Hz]; [|now apply Hy].
      unfold startsNoLater. rewrite Hx, Hb. lia.
Qed.

Lemma sort_sorted (l : list Upcoming) :
  Forall hasTime l -> StronglySorted startsNoLater (sort byDateTime l).
Proof.
  induction 1 as [|x l Hx Hl IH]; cbn [sort fold_right]; [constructor|].
  fold (sort byDateTime l). apply insertSorted_sorted; [exact Hx| |exact IH].
  rewrite Forall_forall in *. intros z Hz. apply Hl.
  rewrite list_elem_of_In in *.
  now apply (Permutation_in _ (sort_perm byDateTime l)).
Qed.

(** Inserting keeps the elements of each start instant in their order:
    the element passes only elements that start strictly earlier. *)
Lemma insertSorted_stable (t : Z) (x : Upcoming) (l : list Upcoming) :
  List.filter (startsAt t) (insertSorted byDateTime x l)
  = List.filter (startsAt t) (x :: l).
Proof.
  induction l as [|y r IH]; cbn [insertSorted]; [reflexivity|].
  destruct (notAfter byDateTime x y) eqn:E; [reflexivity|].
  cbn [List.filter] in *. rewrite IH.
  unfold notAfter, byDateTime in E. unfold startsAt.
  destruct (dateTime x) as [a|], (dateTime y) as [b|]; try discriminate.
  apply Z.leb_gt in E.
  destruct (Z.eqb_spec a t), (Z.eqb_spec b t); reflexivity || lia.
Qed.

Lemma sort_stable (t : Z) (l : list Upcoming) :
  List.filter (startsAt t) (sort byDateTime l) = List.filter (startsAt t) l.
Proof.
  induction l as [|x l IH]; cbn [sort fold_right]; [reflexivity|].
  fold (sort byDateTime l). rewrite insertSorted_stable.
  cbn [List.filter]. now rewrite IH.
Qed.

Lemma map_app_withDateTime (dateOfString : string -> option Z)
    (l : list Appointment) :
  map app (map (withDateTime dateOfString) l) = l.
Proof. rewrite List.map_map. cbn. apply List.map_id. Qed.

(** C8 as stated fails on the tie-break: records with the same start
    come out in the order of the input, here the later created one
    first. *)
Lemma upcoming_tie_not_by_createdAt :
  map app (upcomingAppointments (isoLocal (-180)) "uid-alice" [createdLater; createdEarlier]
                                1793617200000)
  = [createdLater; createdEarlier]
  /\ ~ StronglySorted startThenCreatedAt
         (upcomingAppointments (isoLocal (-180)) "uid-alice" [createdLater; createdEarlier]
                               1793617200000).
Proof.
  split; [vm_compute; reflexivity|].
  intros H. apply StronglySorted_inv in H as [_ H].
  apply Forall_inv in H. vm_compute in H.
  destruct H as [H|[_ H]]; [discriminate H | apply H; reflexivity].
Qed.

(** C8, as the code has it.  For every host date parser, client id,
    list of records and clock, [upcomingAppointments] returns exactly
    the records whose [userId] matches and whose start instant is valid
    and not before the clock, each with its start as [dateTime], in
    ascending order of start; records with the same start keep the
    order they have in the input ([createdAt] is not consulted). *)
Theorem upcoming_filtered_sorted_stable (dateOfString : string -> option Z)
    (userId : string) (appointments : list Appointment) (now : Z) :
  let out := upcomingAppointments dateOfString userId appointments now in
  let wanted :=
    List.filter (fun a => isFuture now (withDateTime dateOfString a))
      (List.filter (fun a => String.eqb (Doc.userId a) userId) appointments) in
  (forall a, In a (map app out)
     <-> In a appointments /\ Doc.userId a = userId
         /\ exists t, startOf dateOfString a = Some t /\ now <= t)
  /\ Permutation (map app out) wanted
  /\ (forall u, In u out -> dateTime u = startOf dateOfString (app u))
  /\ StronglySorted startsNoLater out
  /\ (forall t, List.filter (startsAt t) out
                = List.filter (startsAt t) (map (withDateTime dateOfString) wanted)).
Proof.
  cbv zeta. unfold upcomingAppointments.
  rewrite filter_map_swap.
  set (wanted := List.filter _ (List.filter _ appointments)).
  assert (P : Permutation
                (map app (sort byDateTime (map (withDateTime dateOfString) wanted)))
                wanted).
  { rewrite sort_perm. now rewrite map_app_withDateTime. }
  split; [|split; [exact P|split; [|split]]].
  - intros a. split.
    + intros H. apply (Permutation_in _ P) in H. subst wanted.
      apply filter_In in H as [H F]. apply filter_In in H as [H U].
      apply String.eqb_eq in U. split; [exact H|]. split; [exact U|].
      unfold isFuture, withDateTime in F. cbn in F.
      destruct (startOf dateOfString a) as [t|]; [|discriminate].
      exists t. split; [reflexivity|]. now apply Z.leb_le.
    + intros (H & U & t & E & Ht).
      apply (Permutation_in _ (Permutation_sym P)). subst wanted.
      apply filter_In. split.
      * apply filter_In. split; [exact H|]. now apply String.eqb_eq.
      * unfold isFuture, withDateTime. cbn. rewrite E. now apply Z.leb_le.
  - intros u H.
    apply (Permutation_in _ (sort_perm byDateTime _)) in H.
    apply in_map_iff in H as (a & <- & _). reflexivity.
  - apply sort_sorted. rewrite Forall_forall. intros u H.
    rewrite list_elem_of_In in H.
    apply in_map_iff in H as (a & <- & H). subst wanted.
    apply filter_In in H as [_ F]. unfold isFuture in F. unfold hasTime.
    destruct (dateTime (withDateTime dateOfString a)); [eauto|discriminate].
  - intros t. apply sort_stable.
Qed.

End DashboardFacts.

(** * More on the availability computation and the navigation *)

Module ScheduleGridMore.

Import JSDate JSString ScheduleGrid JSDateFacts JSStringFacts Scenarios.
Import MoreScenarios ScheduleGridFacts.

Lemma slotLabel_businessHours (h : Z) :
  9 <= h <= 17 ->
  In (slotLabel h) businessHours
  /\ map Number (split ":" (slotLabel h)) = [Some h; Some 0].
Proof.
  intros H.
  assert (C : h = 9 \/ h = 10 \/ h = 11 \/ h = 12 \/ h = 13 \/ h = 14
              \/ h = 15 \/ h = 16 \/ h = 17) by lia.
  repeat (destruct C as [C | C]); subst h;
    (split; [vm_compute; tauto | vm_compute; reflexivity]).
Qed.

Lemma slotLabel_hour_inj (h h' : Z) :
  9 <= h <= 17 -> 9 <= h' <= 17 -> slotLabel h = slotLabel h' -> h = h'.
Proof.
  intros H H' E.
  destruct (slotLabel_businessHours h H) as [_ P].
  destruct (slotLabel_businessHours h' H') as [_ P'].
  rewrite E in P. congruence.
Qed.

(** The instant of a wall-clock time on a local day, spelled out. *)
Lemma wallClock_eq (tz day h m : Z) :
  wallClock tz day h m
  = day * msPerDay + h * msPerHour + m * msPerMinute - tz * msPerMinute.
Proof. unfold wallClock, UTC, MakeDate, MakeTime. lia. Qed.

(** An instant is its local day and its local time of day. *)
Lemma local_split (tz t : Z) :
  t = localDay tz t * msPerDay + TimeWithinDay (LocalTime tz t)
      - tz * msPerMinute
  /\ 0 <= TimeWithinDay (LocalTime tz t) < msPerDay.
Proof.
  unfold localDay, Day, TimeWithinDay, LocalTime.
  generalize (tz * msPerMinute). intros off.
  pose proof (Z.div_mod (t + off) msPerDay ltac:(discriminate)) as D.
  pose proof (Z.mod_pos_bound (t + off) msPerDay ltac:(reflexivity)) as B.
  revert D B. generalize ((t + off) / msPerDay) ((t + off) mod msPerDay).
  intros q r D B. split; [lia | exact B].
Qed.

(** The slot of hour [h] on today's date passes the filter exactly when
    it is not booked and starts more than an hour after the clock. *)
Lemma slotFree_today (tz : Z) (apps : list Appointment) (date now h : Z) :
  localDay tz date = localDay tz now ->
  ~ 0 <= getFullYear tz date <= 99 ->
  9 <= h <= 17 ->
  slotFree tz apps date now (slotLabel h)
  = negb (isBooked apps (dateString date) (slotLabel h))
    && (now + 60 * 60 * 1000 <? wallClock tz (localDay tz now) h 0).
Proof.
  intros Hday Hy Hh. unfold slotFree.
  destruct (isBooked apps (dateString date) (slotLabel h)); [reflexivity|].
  apply isToday_iff in Hday as Ht. rewrite Ht.
  destruct (slotLabel_businessHours h Hh) as [_ P].
  unfold slotTime. rewrite P. cbn [nth negb andb].
  unfold getTime. rewrite newDate_local by exact Hy. now rewrite Hday.
Qed.

(** X1.  On today's local day (in a year outside 0..99) the slots
    [getAvailableSlots] returns are exactly the labels of the hours 9
    to 17 that no cached record books for the date's day string and
    whose wall-clock start on that day is more than 60 minutes after
    the clock. *)
Theorem today_slots_exactly (tz : Z) (apps : list Appointment)
    (date now : Z) (tm : string) :
  localDay tz date = localDay tz now ->
  ~ 0 <= getFullYear tz date <= 99 ->
  In tm (getAvailableSlots tz apps date now)
  <-> exists h, 9 <= h <= 17 /\ tm = slotLabel h
        /\ isBooked apps (dateString date) tm = false
        /\ now + 60 * msPerMinute < wallClock tz (localDay tz now) h 0.
Proof.
  intros Hday Hy. rewrite In_getAvailableSlots. split.
  - intros [Hb F]. destruct (businessHours_parse tm Hb) as (h & Hh & -> & _).
    rewrite (slotFree_today tz apps date now h Hday Hy Hh) in F.
    apply andb_true_iff in F as [F1 F2].
    apply negb_true_iff in F1. apply Z.ltb_lt in F2.
    exists h. repeat split; try lia; try exact F1.
    unfold msPerMinute. lia.
  - intros (h & Hh & -> & F1 & F2).
    split; [apply slotLabel_businessHours, Hh|].
    rewrite (slotFree_today tz apps date now h Hday Hy Hh), F1.
    apply Z.ltb_lt. unfold msPerMinute in F2. lia.
Qed.

Lemma today_slots_exactly_witness :
  In "10:00"%string (getAvailableSlots (-180) [] morning morning)
  <-> exists h, 9 <= h <= 17 /\ "10:00"%string = slotLabel h
        /\ isBooked [] (dateString morning) "10:00" = false
        /\ morning + 60 * msPerMinute
           < wallClock (-180) (localDay (-180) morning) h 0.
Proof.
  assert (Hy : ~ 0 <= getFullYear (-180) morning <= 99)
    by (vm_compute; intros [_ H]; apply H; reflexivity).
  exact (today_slots_exactly (-180) [] morning morning "10:00" eq_refl Hy).
Defined.

(** X2.  On today's local day nothing is offered from 16:00 local time
    on, whatever the bookings; before 16:00 the slot 17:00 is offered
    unless it is booked. *)
Theorem today_closes_at_16h (tz : Z) (apps : list Appointment)
    (date now : Z) :
  localDay tz date = localDay tz now ->
  ~ 0 <= getFullYear tz date <= 99 ->
  (16 * msPerHour <= TimeWithinDay (LocalTime tz now) ->
   getAvailableSlots tz apps date now = [])
  /\ (TimeWithinDay (LocalTime tz now) < 16 * msPerHour ->
      isBooked apps (dateString date) "17:00" = false ->
      In "17:00"%string (getAvailableSlots tz apps date now)).
Proof.
  intros Hday Hy.
  destruct (local_split tz now) as [Hn _].
  split.
  - intros Late.
    destruct (getAvailableSlots tz apps date now) as [|tm l] eqn:E;
      [reflexivity|].
    assert (Hin : In tm (getAvailableSlots tz apps date now))
      by (rewrite E; now left).
    apply In_getAvailableSlots in Hin as [Hb F].
    destruct (businessHours_parse tm Hb) as (h & Hh & -> & _).
    rewrite (slotFree_today tz apps date now h Hday Hy Hh) in F.
    apply andb_true_iff in F as [_ F]. apply Z.ltb_lt in F.
    rewrite wallClock_eq in F. revert Hn Late F.
    generalize (localDay tz now) (TimeWithinDay (LocalTime tz now))
      (tz * msPerMinute).
    unfold msPerDay, msPerHour, msPerMinute. intros. lia.
  - intros Early Free. apply In_getAvailableSlots.
    split; [vm_compute; tauto|].
    change "17:00"%string with (slotLabel 17) in *.
    rewrite (slotFree_today tz apps date now 17 Hday Hy ltac:(lia)), Free.
    apply Z.ltb_lt. rewrite wallClock_eq. revert Hn Early.
    generalize (localDay tz now) (TimeWithinDay (LocalTime tz now))
      (tz * msPerMinute).
    unfold msPerDay, msPerHour, msPerMinute. intros. lia.
Qed.

Lemma today_closes_at_16h_witness :
  getAvailableSlots (-180) [bookedAt10] at16h at16h = [].
Proof.
  assert (Hy : ~ 0 <= getFullYear (-180) at16h <= 99)
    by (vm_compute; intros [_ H]; apply H; reflexivity).
  assert (Late : 16 * msPerHour <= TimeWithinDay (LocalTime (-180) at16h))
    by (vm_compute; discriminate).
  exact (proj1 (today_closes_at_16h (-180) [bookedAt10] at16h at16h
                  eq_refl Hy) Late).
Defined.

Lemma filter_both {A : Type} (f g : A -> bool) (l : list A) :
  List.filter (fun x => g x && f x) l = List.filter g (List.filter f l).
Proof.
  induction l as [|x l IH]; [reflexivity|]. cbn [List.filter].
  destruct (f x); cbn [List.filter]; rewrite ?andb_false_r, ?andb_true_r;
    [destruct (g x)|]; now rewrite IH.
Qed.

Lemma slotFree_more (tz : Z) (apps apps' : list Appointment) (date now : Z)
    (tm : string) :
  (forall a, In a apps -> In a apps') ->
  slotFree tz apps' date now tm
  = negb (isBooked apps' (dateString date) tm) && slotFree tz apps date now tm.
Proof.
  intros Hincl. unfold slotFree.
  destruct (isBooked apps' (dateString date) tm) eqn:B'; [reflexivity|].
  destruct (isBooked apps (dateString date) tm) eqn:B; [|reflexivity].
  apply isBooked_iff in B as (a & Ha & H).
  assert (T : isBooked apps' (dateString date) tm = true)
    by (apply isBooked_iff; exists a; split; [apply Hincl, Ha | exact H]).
  congruence.
Qed.

(** X3.  Bookings only remove slots: when the cache grows, the new
    result is the old one without the slots the larger cache books. *)
Theorem more_bookings_fewer_slots (tz : Z) (apps apps' : list Appointment)
    (date now : Z) :
  (forall a, In a apps -> In a apps') ->
  getAvailableSlots tz apps' date now
  = List.filter (fun tm => negb (isBooked apps' (dateString date) tm))
                (getAvailableSlots tz apps date now).
Proof.
  intros Hincl. unfold getAvailableSlots. rewrite <- filter_both.
  apply filter_ext. intros tm. now apply slotFree_more.
Qed.

Lemma more_bookings_fewer_slots_witness :
  getAvailableSlots (-180) [bookedAt10] morning morning
  = List.filter (fun tm => negb (isBooked [bookedAt10] (dateString morning) tm))
                (getAvailableSlots (-180) [] morning morning).
Proof.
  exact (more_bookings_fewer_slots (-180) [] [bookedAt10] morning morning
           (fun a (H : In a []) => match H with end)).
Defined.

(** X4.  For a date on a later local day than the clock's, the result
    does not depend on the time of day: every slot of the fixed set is
    offered unless a cached record books it for the date's day
    string. *)
Theorem future_day_slots_unbooked (tz : Z) (apps : list Appointment)
    (date now : Z) :
  localDay tz now < localDay tz date ->
  getAvailableSlots tz apps date now
  = List.filter (fun tm => negb (isBooked apps (dateString date) tm))
                businessHours.
Proof.
  intros H. unfold getAvailableSlots. rewrite timeSlots_eq.
  apply filter_ext. intros tm. apply slotFree_other_day. lia.
Qed.

Lemma future_day_slots_unbooked_witness :
  getAvailableSlots (-180) [] tomorrowMorning at16h
  = List.filter (fun tm => negb (isBooked [] (dateString tomorrowMorning) tm))
                businessHours.
Proof.
  assert (H : localDay (-180) at16h < localDay (-180) tomorrowMorning)
    by (vm_compute; reflexivity).
  exact (future_day_slots_unbooked (-180) [] tomorrowMorning at16h H).
Defined.




End ScheduleGridMore.

(** * More on the booking flow *)

Module BookingMore.

Import JSDate ScheduleGrid Booking BookingRuns Scenarios MoreScenarios.
Import JSDateFacts ScheduleGridFacts BookingFacts.

Lemma map_props_step (w : World) (e : Event) :
  map props (sessions (step w e)) = map props (sessions w).
Proof.
  unfold step. cbn [sessions].
  destruct (sessions w !! target e) as [s|] eqn:E; [|reflexivity].
  change (map props) with (fmap (M:=list) props).
  rewrite list_fmap_insert.
  apply list_insert_id. rewrite list_lookup_fmap, E. cbn. f_equal.
  destruct e; cbn [stepSession target];
    unfold clickConfirm, settle, withGrid;
    repeat match goal with
           | |- context [if ?b then _ else _] => destruct b
           | |- context [match ?x with _ => _ end] => destruct x
           end; reflexivity.
Qed.

Lemma tz_stepSession (docs : list Appointment) (e : Event) (s : Session) :
  tz (stepSession docs e s) = tz s.
Proof.
  destruct e; cbn [stepSession]; unfold clickConfirm, settle, withGrid;
    repeat match goal with
           | |- context [if ?b then _ else _] => destruct b
           | |- context [match ?x with _ => _ end] => destruct x
           end; reflexivity.
Qed.

(** What one event does to the collection. *)
Lemma store_step (w : World) (e : Event) :
  store (step w e) = store w
  \/ exists i k s app newId serverTime,
       sessions w !! i = Some s /\ inFlight s !! k = Some app
       /\ store (step w e) = store w ++ [stored newId serverTime app].
Proof.
  unfold step, stepStore. cbn [store].
  destruct e as [| | | | | |i k [[newId serverTime]|]]; try now left.
  destruct (sessions w !! i) as [s|] eqn:Hs; [|now left].
  destruct (inFlight s !! k) as [app|] eqn:Hk; [|now left].
  right. exists i, k, s, app, newId, serverTime. auto.
Qed.

Lemma writtenFor_stored (p : Props) (newId : string) (serverTime : Z)
    (app : Appointment) :
  writtenFor p app -> writtenFor p (stored newId serverTime app).
Proof. intros H. exact H. Qed.

Lemma slotRendered_In (tm : string) (l : list string) :
  slotRendered tm l = true <-> In tm l.
Proof.
  unfold slotRendered. rewrite existsb_exists. split.
  - intros (x & Hx & E). apply String.eqb_eq in E. now subst.
  - intros H. exists tm. split; [exact H | apply String.eqb_refl].
Qed.

Lemma wellFormed_stepSession (docs : list Appointment) (e : Event)
    (s : Session) :
  wellFormed s -> wellFormed (stepSession docs e s).
Proof.
  intros [Ht Hf]. destruct e; cbn [stepSession].
  - destruct (mounted s); now split.
  - destruct (mounted s && prevEnabled (tz s) now (grid s)); [|now split].
    split; [|exact Hf]. cbn [grid withGrid]. unfold handleDateChange.
    destruct (_ <? _); [exact Ht|]. cbn. discriminate.
  - destruct (mounted s); [|now split].
    split; [|exact Hf]. cbn [grid withGrid]. unfold handleDateChange.
    destruct (_ <? _); [exact Ht|]. cbn. discriminate.
  - destruct (mounted s) ; cbn [andb]; [|now split].
    destruct (slotRendered tm _) eqn:R; [|now split].
    split; [|exact Hf]. cbn. intros tm' E. injection E as <-.
    apply slotRendered_In, In_getAvailableSlots in R. tauto.
  - unfold clickConfirm.
    destruct (mounted s && confirmEnabled (grid s)); [|now split].
    unfold handlePaymentAndBooking.
    assert (Same : forall g fl,
               selectedTime g = selectedTime (grid s) ->
               Forall (writtenFor (props s)) fl ->
               wellFormed {| tz := tz s; props := props s;
                             mounted := mounted s; grid := g;
                             inFlight := inFlight s ++ fl;
                             confirmed := confirmed s |}).
    { intros g fl Eg Hfl. split; cbn [grid inFlight props].
      - rewrite Eg. exact Ht.
      - apply Forall_app. auto. }
    destruct (selectedTime (grid s)) as [[|c r]|] eqn:E;
      [apply Same; [exact E | constructor] |
       | apply Same; [exact E | constructor]].
    destruct (negb paymentOk); [apply Same; [exact E | constructor]|].
    apply Same; [exact E|]. constructor; [|constructor].
    unfold writtenFor, newAppointment. cbn.
    split; [apply Ht; reflexivity|].
    split; [eexists; apply dateString_spec|]. tauto.
  - now split.
  - unfold settle. destruct (inFlight s !! k) as [app|]; [|now split].
    destruct result as [[newId serverTime]|]; cbn;
      (split; [exact Ht | now apply Forall_delete]).
Qed.

Lemma wellFormed_step (w : World) (e : Event) :
  Forall wellFormed (sessions w) -> Forall wellFormed (sessions (step w e)).
Proof.
  rewrite !Forall_lookup. intros H j s Hj.
  destruct (Nat.eq_dec j (target e)) as [->|Hne].
  - destruct (sessions w !! target e) as [s0|] eqn:E.
    + rewrite (lookup_step_target w e s0 E) in Hj. injection Hj as <-.
      apply wellFormed_stepSession. eapply H, E.
    + unfold step in Hj. cbn [sessions] in Hj. rewrite E in Hj. congruence.
  - rewrite lookup_step_other in Hj by exact Hne. eapply H, Hj.
Qed.

(** X7.  The booking flow only appends to the collection.  From a world
    whose sessions are well formed (freshly mounted ones are), every
    run leaves the documents that were there untouched and in place,
    and each document it adds has an id and a creation time from the
    store, the fixed service, price 10 and [paid] set, a time of the
    fixed hourly set, an ISO day as its date, and the identity of the
    client of one of the sessions. *)
Theorem run_appends_client_records (w : World) (events : list Event) :
  Forall wellFormed (sessions w) ->
  exists added,
    store (run w events) = store w ++ added
    /\ Forall (fun r => is_Some (Doc.id r) /\ is_Some (Doc.createdAt r)
                        /\ exists s, In s (sessions w)
                                     /\ writtenFor (props s) r)
              added.
Proof.
  revert w. induction events as [|e events IH]; intros w Hw.
  - exists []. split; [symmetry; apply app_nil_r | constructor].
  - cbn [run fold_left]. fold (run (step w e) events).
    destruct (IH (step w e) (wellFormed_step w e Hw)) as (added & St & Ha).
    assert (Ha' : Forall (fun r => is_Some (Doc.id r)
                            /\ is_Some (Doc.createdAt r)
                            /\ exists s, In s (sessions w)
                                         /\ writtenFor (props s) r) added).
    { eapply Forall_impl; [exact Ha|]. cbv beta.
      intros r (Hi & Hc & s & Hs & Hr). split; [exact Hi|].
      split; [exact Hc|].
      assert (Hp : In (props s) (map props (sessions w)))
        by (rewrite <- (map_props_step w e); now apply in_map).
      apply in_map_iff in Hp as (s' & Ep & Hs').
      exists s'. rewrite Ep. auto. }
    destruct (store_step w e)
      as [E | (i & k & s & app & newId & serverTime & Hs & Hk & E)].
    + exists added. rewrite St, E. auto.
    + exists (stored newId serverTime app :: added). split.
      * rewrite St, E, <- app_assoc. reflexivity.
      * constructor; [|exact Ha'].
        split; [cbn; eauto|]. split; [cbn; eauto|].
        exists s. split.
        -- apply list_elem_of_In. eapply list_elem_of_lookup_2, Hs.
        -- rewrite Forall_lookup in Hw.
           destruct (Hw i s Hs) as [_ Hf].
           rewrite Forall_lookup in Hf. exact (Hf k app Hk).
Qed.

Lemma run_appends_client_records_witness :
  exists added,
    store (run twoClients raceFor14) = store twoClients ++ added
    /\ Forall (fun r => is_Some (Doc.id r) /\ is_Some (Doc.createdAt r)
                        /\ exists s, In s (sessions twoClients)
                                     /\ writtenFor (props s) r)
              added.
Proof.
  assert (H : Forall wellFormed (sessions twoClients)).
  { repeat constructor; discriminate. }
  exact (run_appends_client_records twoClients raceFor14 H).
Defined.

Lemma isBooking_handleDateChange (zone days now : Z) (g : State) :
  isBooking (handleDateChange zone days now g) = isBooking g.
Proof. unfold handleDateChange. now destruct (_ <? _). Qed.

Lemma confirmsOnce_withGrid (g : State) (s : Session) :
  isBooking g = isBooking (grid s) ->
  confirmsOnce s -> confirmsOnce (withGrid g s).
Proof.
  intros E (Hl & Hb & Hc). unfold confirmsOnce. cbn. rewrite E. auto.
Qed.

Lemma confirmsOnce_stepSession (docs : list Appointment) (e : Event)
    (s : Session) :
  confirmsOnce s -> confirmsOnce (stepSession docs e s).
Proof.
  intros H. destruct e; cbn [stepSession].
  - destruct (mounted s); [|exact H].
    now apply confirmsOnce_withGrid.
  - destruct (mounted s && prevEnabled (tz s) now (grid s)); [|exact H].
    apply confirmsOnce_withGrid; [apply isBooking_handleDateChange|exact H].
  - destruct (mounted s); [|exact H].
    apply confirmsOnce_withGrid; [apply isBooking_handleDateChange|exact H].
  - destruct (mounted s && slotRendered _ _); [|exact H].
    now apply confirmsOnce_withGrid.
  - unfold clickConfirm.
    destruct (mounted s && confirmEnabled (grid s)) eqn:E; [|exact H].
    destruct H as (Hl & Hb & Hc).
    apply andb_true_iff in E as [M E]. unfold confirmEnabled in E.
    unfold handlePaymentAndBooking.
    destruct (selectedTime (grid s)) as [[|c r]|]; try discriminate.
    apply negb_true_iff in E.
    assert (Nc : confirmed s = []).
    { destruct (confirmed s); [reflexivity|].
      rewrite Hc in M; [discriminate|congruence]. }
    assert (Nf : inFlight s = []).
    { destruct (inFlight s); [reflexivity|].
      rewrite Hb in E; [discriminate|congruence]. }
    destruct (negb paymentOk); unfold confirmsOnce; cbn; rewrite Nc, Nf; cbn;
      repeat split; lia || congruence.
  - destruct H as (Hl & Hb & Hc). unfold confirmsOnce. cbn. auto.
  - unfold settle. destruct (inFlight s !! k) as [app|] eqn:E; [|exact H].
    destruct H as (Hl & Hb & Hc).
    assert (L : (1 <= length (inFlight s))%nat)
      by (apply lookup_lt_Some in E; lia).
    assert (Nc : confirmed s = []) by (apply nil_length_inv; lia).
    assert (Nf : delete k (inFlight s) = []).
    { apply nil_length_inv.
      rewrite length_delete by (rewrite E; eauto). lia. }
    destruct result as [[newId serverTime]|]; unfold confirmsOnce; cbn;
      rewrite Nc, Nf; cbn; repeat split; try lia; try congruence.
Qed.

Lemma confirmsOnce_run (events : list Event) :
  forall w, Forall confirmsOnce (sessions w) ->
  Forall confirmsOnce (sessions (run w events)).
Proof.
  induction events as [|e events IH]; intros w H; [exact H|].
  apply IH. clear IH. rewrite !Forall_lookup in *. intros j s Hj.
  destruct (Nat.eq_dec j (target e)) as [->|Hne].
  - destruct (sessions w !! target e) as [s0|] eqn:E.
    + rewrite (lookup_step_target w e s0 E) in Hj. injection Hj as <-.
      apply confirmsOnce_stepSession. eapply H, E.
    + unfold step in Hj. cbn [sessions] in Hj. rewrite E in Hj. congruence.
  - rewrite lookup_step_other in Hj by exact Hne. eapply H, Hj.
Qed.

Lemma unmounted_ignores (docs : list Appointment) (e : Event) (s : Session) :
  mounted s = false -> inFlight s = [] -> stepSession docs e s = s.
Proof.
  intros M F. destruct e; cbn [stepSession]; unfold clickConfirm, settle;
    rewrite ?M, ?F; cbn [andb]; try reflexivity.
  destruct s. cbn in *. now subst.
Qed.

(** X8.  One mounted grid confirms at most one booking.  In every run
    from sessions without a write in flight or a confirmation, a
    session has called [onBookingConfirmed] at most once; once it has,
    the grid is unmounted and every further event addressed to it is
    ignored. *)
Theorem grid_confirms_once (w : World) (events : list Event) (i : nat)
    (s : Session) :
  Forall idle (sessions w) ->
  sessions (run w events) !! i = Some s ->
  (length (confirmed s) <= 1)%nat
  /\ (confirmed s <> [] ->
      mounted s = false
      /\ forall e, target e = i -> step (run w events) e = run w events).
Proof.
  intros H0 Hs.
  assert (Inv : Forall confirmsOnce (sessions (run w events))).
  { apply confirmsOnce_run. eapply Forall_impl; [exact H0|].
    intros s0 [E1 E2]. unfold confirmsOnce. rewrite E1, E2. cbn.
    repeat split; lia || congruence. }
  rewrite Forall_lookup in Inv. destruct (Inv i s Hs) as (Hl & Hb & Hc).
  split; [lia|]. intros N. specialize (Hc N). split; [exact Hc|].
  assert (F : inFlight s = []).
  { apply nil_length_inv. destruct (confirmed s); [congruence|].
    cbn in Hl. lia. }
  intros e <-. apply (step_ignored _ e s Hs).
  - now apply unmounted_ignores.
  - unfold stepStore.
    destruct e as [| | | | | |j k [[newId serverTime]|]]; try reflexivity.
    cbn [target] in Hs. rewrite Hs, F. reflexivity.
Qed.

Lemma grid_confirms_once_witness :
  step (run twoClients raceFor14) (ConfirmClick 0 true)
  = run twoClients raceFor14.
Proof.
  assert (H0 : Forall idle (sessions twoClients))
    by (repeat constructor).
  assert (Hs : sessions (run twoClients raceFor14) !! 0%nat
               = Some aliceConfirmed) by (vm_compute; reflexivity).
  assert (N : confirmed aliceConfirmed <> []) by (vm_compute; discriminate).
  exact (proj2 (proj2 (grid_confirms_once twoClients raceFor14 0%nat
                         aliceConfirmed H0 Hs) N)
               (ConfirmClick 0 true) eq_refl).
Defined.

Lemma localDay_mono (zone a b : Z) : a <= b -> localDay zone a <= localDay zone b.
Proof.
  intros H. unfold localDay, Day, LocalTime.
  apply Z.div_le_mono; [reflexivity | lia].
Qed.

Lemma notBefore_handleDateChange (t0 days now : Z) (s : Session) :
  t0 <= now -> notBefore t0 s ->
  notBefore t0 (withGrid (handleDateChange (tz s) days now (grid s)) s).
Proof.
  intros Hn H. unfold notBefore in *. cbn [tz grid withGrid].
  destruct (handleDateChange_not_past (tz s) days now (grid s)) as [E|L].
  - now rewrite E.
  - pose proof (localDay_mono (tz s) t0 now Hn). lia.
Qed.

Lemma notBefore_stepSession (t0 : Z) (docs : list Appointment) (e : Event)
    (s : Session) :
  match clock e with Some now => t0 <= now | None => True end ->
  notBefore t0 s -> notBefore t0 (stepSession docs e s).
Proof.
  intros Hc H. destruct e; cbn [stepSession clock] in *.
  - destruct (mounted s); exact H.
  - destruct (mounted s && prevEnabled (tz s) now (grid s)); [|exact H].
    now apply notBefore_handleDateChange.
  - destruct (mounted s); [|exact H].
    now apply notBefore_handleDateChange.
  - destruct (mounted s && slotRendered _ _); exact H.
  - unfold clickConfirm.
    destruct (mounted s && confirmEnabled (grid s)); [|exact H].
    unfold handlePaymentAndBooking.
    destruct (selectedTime (grid s)) as [[|c r]|]; try exact H.
    destruct (negb paymentOk); exact H.
  - exact H.
  - unfold settle. destruct (inFlight s !! k); [|exact H].
    destruct result as [[newId serverTime]|]; exact H.
Qed.

(** X6.  A grid never shows a day before the day it was opened on:
    when no event reads a clock earlier than [t0], sessions whose
    selected date is on or after the local day of [t0] (those mounted
    at [t0] are) stay so throughout every run. *)
Theorem selected_day_never_before (t0 : Z) (events : list Event) :
  forall w,
    clocksFrom t0 events ->
    Forall (notBefore t0) (sessions w) ->
    Forall (notBefore t0) (sessions (run w events)).
Proof.
  induction events as [|e events IH]; intros w Hc H; [exact H|].
  apply Forall_cons in Hc as [He Hc].
  apply (IH (step w e) Hc). clear IH.
  rewrite !Forall_lookup in *. intros j s Hj.
  destruct (Nat.eq_dec j (target e)) as [->|Hne].
  - destruct (sessions w !! target e) as [s0|] eqn:E.
    + rewrite (lookup_step_target w e s0 E) in Hj. injection Hj as <-.
      apply notBefore_stepSession; [exact He | eapply H, E].
    + unfold step in Hj. cbn [sessions] in Hj. rewrite E in Hj. congruence.
  - rewrite lookup_step_other in Hj by exact Hne. eapply H, Hj.
Qed.

Lemma selected_day_never_before_witness :
  Forall (notBefore morning) (sessions (run twoClients browsing)).
Proof.
  assert (Hc : clocksFrom morning browsing).
  { repeat constructor; cbn; vm_compute; discriminate. }
  assert (H : Forall (notBefore morning) (sessions twoClients)).
  { repeat constructor; vm_compute; discriminate. }
  exact (selected_day_never_before morning browsing twoClients Hc H).
Defined.

(** X9.  A slot that the cache shows as booked for the selected date
    cannot be selected: a click for the time of such a record leaves
    the world as it is. *)
Theorem booked_slot_not_selectable (w : World) (i : nat) (s : Session)
    (a : Appointment) (now : Z) :
  sessions w !! i = Some s ->
  In a (appointments (grid s)) ->
  Doc.date a = dateString (selectedDate (grid s)) ->
  step w (SelectTime i (Doc.time a) now) = w.
Proof.
  intros Hs Ha Hd.
  apply (step_ignored w (SelectTime i (Doc.time a) now) s Hs); [|reflexivity].
  cbn [stepSession].
  replace (slotRendered _ _) with false; [now rewrite andb_false_r|].
  symmetry. apply not_true_is_false. intros R.
  apply slotRendered_In, In_getAvailableSlots in R as [_ F].
  rewrite slotFree_booked in F; [discriminate|].
  apply isBooked_iff. eauto.
Qed.

Lemma booked_slot_not_selectable_witness :
  step (run twoClients brunoSynced) (SelectTime 1 "14:00" morning)
  = run twoClients brunoSynced.
Proof.
  assert (Hs : sessions (run twoClients brunoSynced) !! 1%nat
               = Some brunoAfterSync) by (vm_compute; reflexivity).
  assert (Ha : In cachedAt14 (appointments (grid brunoAfterSync)))
    by (vm_compute; now left).
  assert (Hd : Doc.date cachedAt14
               = dateString (selectedDate (grid brunoAfterSync)))
    by (vm_compute; reflexivity).
  exact (booked_slot_not_selectable (run twoClients brunoSynced) 1%nat
           brunoAfterSync cachedAt14 morning Hs Ha Hd).
Defined.

(** X10.  Confirming does not look at the cache again.  When a slot is
    selected and a snapshot then replaces the cache, whatever the
    collection holds, the next confirmed click still hands the record
    for the selected date and time to [addDoc]. *)
Theorem confirm_ignores_fresh_cache (w : World) (i : nat) (s : Session)
    (tm : string) :
  sessions w !! i = Some s ->
  mounted s = true -> confirmEnabled (grid s) = true ->
  selectedTime (grid s) = Some tm ->
  exists s', sessions (step (step w (Snapshot i)) (ConfirmClick i true)) !! i
             = Some s'
    /\ appointments (grid s') = store w
    /\ inFlight s' = inFlight s ++ [newAppointment (props s) (grid s) tm]
    /\ isBooking (grid s') = true.
Proof.
  intros Hs M C T.
  pose proof (lookup_step_target w (Snapshot i) s Hs) as H1.
  cbn [target stepSession] in H1. rewrite M in H1.
  pose proof (lookup_step_target _ (ConfirmClick i true) _ H1) as H2.
  cbn [target] in H2. eexists. split; [exact H2|].
  cbn [stepSession]. unfold clickConfirm. cbn [mounted withGrid grid].
  rewrite M. unfold confirmEnabled in *. unfold handlePaymentAndBooking.
  cbn [selectedTime setAppointments isBooking]. rewrite T in *.
  destruct tm as [|c r]; [discriminate|]. rewrite C. cbn.
  repeat split.
Qed.

Lemma confirm_ignores_fresh_cache_witness :
  exists s',
    sessions (step (step (run twoClients brunoSelects) (Snapshot 1))
                   (ConfirmClick 1 true)) !! 1%nat = Some s'
    /\ appointments (grid s') = store (run twoClients brunoSelects)
    /\ inFlight s'
       = inFlight brunoSelected
         ++ [newAppointment (props brunoSelected) (grid brunoSelected)
                            "14:00"]
    /\ isBooking (grid s') = true.
Proof.
  assert (Hs : sessions (run twoClients brunoSelects) !! 1%nat
               = Some brunoSelected) by (vm_compute; reflexivity).
  exact (confirm_ignores_fresh_cache (run twoClients brunoSelects) 1%nat
           brunoSelected "14:00" Hs eq_refl eq_refl eq_refl).
Defined.

End BookingMore.

(** * More on the dashboard's list *)

Module DashboardMore.

Import JSDate JSString ScheduleGrid Booking Dashboard Scenarios MoreScenarios.
Import JSDateFacts ScheduleGridFacts ScheduleGridMore DashboardFacts.

Lemma isoLocal_chars (tz : Z) (y1 y2 y3 y4 m1 m2 d1 d2 h1 h2 n1 n2 s1 s2 : ascii) :
  isoLocal tz
    (string_of_list_ascii
       [y1; y2; y3; y4; "-"; m1; m2; "-"; d1; d2; "T"; h1; h2; ":"; n1; n2;
        ":"; s1; s2]%char)
  = match decimalValue 0 [y1; y2; y3; y4],
          decimalValue 0 [m1; m2], decimalValue 0 [d1; d2],
          decimalValue 0 [h1; h2], decimalValue 0 [n1; n2],
          decimalValue 0 [s1; s2] with
    | Some y, Some m, Some d, Some h, Some n, Some sec =>
        if (1 <=? m) && (m <=? 12) && (1 <=? d) && (d <=? 31)
           && (h <=? 23) && (n <=? 59) && (sec <=? 59)
        then Some (UTC tz (MakeDate (MakeDay y (m - 1) d) (MakeTime h n sec 0)))
        else None
    | _, _, _, _, _, _ => None
    end.
Proof.
  unfold isoLocal. rewrite list_ascii_of_string_of_list_ascii. reflexivity.
Qed.

Lemma append_of_list (l : list ascii) (s : string) :
  String.append (string_of_list_ascii l) s
  = string_of_list_ascii (l ++ list_ascii_of_string s).
Proof.
  induction l as [|c l IH]; cbn.
  - now rewrite string_of_list_ascii_of_string.
  - now rewrite IH.
Qed.

(** The text of a slot label followed by the seconds, for the hours of
    the fixed set. *)
Lemma slotLabel_chars (h : Z) :
  9 <= h <= 17 ->
  list_ascii_of_string (String.append "T" (String.append (slotLabel h) ":00"))
  = ("T" :: digitsW 2 h ++ ":" :: digitsW 2 0 ++ ":" :: digitsW 2 0)%char.
Proof.
  intros H.
  assert (C : h = 9 \/ h = 10 \/ h = 11 \/ h = 12 \/ h = 13 \/ h = 14
              \/ h = 15 \/ h = 16 \/ h = 17) by lia.
  repeat (destruct C as [C | C]); subst h; vm_compute; reflexivity.
Qed.

Lemma MakeDay_civil (day y m d : Z) :
  civilFromDays day = (y, m, d) -> MakeDay y (m - 1) d = day.
Proof.
  intros E. destruct (civilFromDays_spec day) as (y' & m' & d' & E' & R & Hm & _).
  rewrite E in E'. injection E' as <- <- <-.
  unfold MakeDay.
  rewrite (Z.div_small (m - 1) 12), (Z.mod_small (m - 1) 12) by lia.
  replace (m - 1 + 1) with m by lia.
  now rewrite Z.add_0_r, daysFromCivil_day.
Qed.

(** Reading back the date and time a record was written with. *)
Lemma startOf_isoLocal (tz day h : Z) (r : Appointment) :
  Doc.date r = isoText day -> Doc.time r = slotLabel h ->
  9 <= h <= 17 -> 0 <= YearFromTime (day * msPerDay) <= 9999 ->
  startOf (isoLocal tz) r = Some (wallClock tz day h 0).
Proof.
  intros Hd Ht Hh Hy. unfold startOf. rewrite Hd, Ht.
  unfold isoText. rewrite append_of_list, (slotLabel_chars h Hh).
  unfold YearFromTime, Day in Hy.
  rewrite Z.div_mul in Hy by discriminate.
  unfold isoDate.
  destruct (civilFromDays_spec day) as (y & m & d & E & _ & Hm & Hdd).
  rewrite E in Hy |- *. unfold isoYear.
  replace ((0 <=? y) && (y <=? 9999)) with true
    by (symmetry; apply andb_true_iff; rewrite !Z.leb_le; lia).
  cbn [digitsW List.app]. rewrite isoLocal_chars.
  change [digit (y / 10 / 10 / 10); digit (y / 10 / 10); digit (y / 10);
          digit y] with (digitsW 4 y).
  change [digit (m / 10); digit m] with (digitsW 2 m).
  change [digit (d / 10); digit d] with (digitsW 2 d).
  change [digit (h / 10); digit h] with (digitsW 2 h).
  change [digit (0 / 10); digit 0] with (digitsW 2 0).
  rewrite !decimalValue_digitsW by (cbn; lia).
  replace ((1 <=? m) && (m <=? 12) && (1 <=? d) && (d <=? 31) && (h <=? 23)
           && (0 <=? 59) && (0 <=? 59)) with true.
  - now rewrite (MakeDay_civil day y m d E).
  - symmetry. rewrite !andb_true_iff, !Z.leb_le. lia.
Qed.

Lemma utcDay_of_day (t : Z) : YearFromTime (utcDay t * msPerDay) = YearFromTime t.
Proof.
  unfold YearFromTime, utcDay, Day. now rewrite Z.div_mul by discriminate.
Qed.

(** X11.  The date and time of a record written from the grid read back
    (in a year from 0 to 9999) as the wall-clock hour of the slot on
    the UTC day of the selected date: that instant is the start the
    dashboard sorts and filters by, and the one the notification
    prints. *)
Theorem committed_record_start (tz : Z) (p : Props) (g : State) (h : Z)
    (newId : string) (serverTime : Z) :
  9 <= h <= 17 ->
  0 <= YearFromTime (selectedDate g) <= 9999 ->
  startOf (isoLocal tz)
          (stored newId serverTime (newAppointment p g (slotLabel h)))
  = Some (wallClock tz (utcDay (selectedDate g)) h 0)
  /\ startOf (isoLocal tz) (withId newId (newAppointment p g (slotLabel h)))
     = Some (wallClock tz (utcDay (selectedDate g)) h 0).
Proof.
  intros Hh Hy. rewrite <- utcDay_of_day in Hy.
  split; apply startOf_isoLocal; try assumption; try reflexivity;
    cbn; apply dateString_spec.
Qed.

Lemma committed_record_start_witness :
  startOf (isoLocal (-180))
          (stored "doc-1" (morning + 1000)
                  (newAppointment alice (initialState lateEvening)
                                  (slotLabel 14)))
  = Some (wallClock (-180) (utcDay (selectedDate (initialState lateEvening)))
                    14 0)
  /\ startOf (isoLocal (-180))
             (withId "doc-1" (newAppointment alice (initialState lateEvening)
                                             (slotLabel 14)))
     = Some (wallClock (-180)
                       (utcDay (selectedDate (initialState lateEvening)))
                       14 0).
Proof.
  assert (Hh : 9 <= 14 <= 17) by lia.
  assert (Hy : 0 <= YearFromTime (selectedDate (initialState lateEvening))
               <= 9999) by (vm_compute; split; discriminate).
  exact (committed_record_start (-180) alice (initialState lateEvening) 14
           "doc-1" (morning + 1000) Hh Hy).
Defined.



Lemma In_upcomingAppointments (dateOfString : string -> option Z)
    (userId : string) (appointments : list Appointment) (now : Z)
    (a : Appointment) :
  In a (map Dashboard.app
            (upcomingAppointments dateOfString userId appointments now))
  <-> In a appointments /\ Doc.userId a = userId
      /\ exists t, startOf dateOfString a = Some t /\ now <= t.
Proof.
  unfold upcomingAppointments. rewrite filter_map_swap.
  set (wanted := List.filter _ (List.filter _ appointments)).
  assert (P : Permutation
                (map Dashboard.app
                     (sort byDateTime (map (withDateTime dateOfString) wanted)))
                wanted).
  { rewrite sort_perm. now rewrite map_app_withDateTime. }
  split.
  - intros H. apply (Permutation_in _ P) in H. subst wanted.
    apply filter_In in H as [H F]. apply filter_In in H as [H U].
    apply String.eqb_eq in U. split; [exact H|]. split; [exact U|].
    unfold isFuture, withDateTime in F. cbn in F.
    destruct (startOf dateOfString a) as [t|]; [|discriminate].
    exists t. split; [reflexivity|]. now apply Z.leb_le.
  - intros (H & U & t & E & Ht).
    apply (Permutation_in _ (Permutation_sym P)). subst wanted.
    apply filter_In. split.
    + apply filter_In. split; [exact H|]. now apply String.eqb_eq.
    + unfold isFuture, withDateTime. cbn. rewrite E. now apply Z.leb_le.
Qed.

(** X14.  In a zone at or west of UTC, a booking made from the grid is
    on its owner's list at once: when the slot was offered for a
    selected date on today's local day or a later one and the record
    for it is in the snapshot, [upcomingAppointments] at the same clock
    returns that record. *)
Theorem fresh_booking_is_upcoming (tz : Z) (p : Props) (g : State)
    (cache docs : list Appointment) (now : Z) (tm newId : string)
    (serverTime : Z) :
  tz <= 0 ->
  In tm (getAvailableSlots tz cache (selectedDate g) now) ->
  localDay tz now <= localDay tz (selectedDate g) ->
  0 <= YearFromTime (selectedDate g) <= 9999 ->
  ~ 0 <= getFullYear tz (selectedDate g) <= 99 ->
  In (stored newId serverTime (newAppointment p g tm)) docs ->
  In (stored newId serverTime (newAppointment p g tm))
     (map Dashboard.app
          (upcomingAppointments (isoLocal tz) (userId p) docs now)).
Proof.
  intros Hz Hin Hday Hy Hl Hdoc.
  apply In_upcomingAppointments. split; [exact Hdoc|]. split; [reflexivity|].
  apply In_getAvailableSlots in Hin as [Hb F].
  destruct (businessHours_parse tm Hb) as (h & Hh & -> & _).
  exists (wallClock tz (utcDay (selectedDate g)) h 0). split.
  { rewrite <- utcDay_of_day in Hy.
    apply startOf_isoLocal; try assumption; try reflexivity.
    cbn. apply dateString_spec. }
  assert (U : localDay tz (selectedDate g) <= utcDay (selectedDate g)).
  { unfold localDay, utcDay, Day, LocalTime.
    apply Z.div_le_mono; [reflexivity|]. unfold msPerMinute. lia. }
  destruct (Z.eq_dec (localDay tz (selectedDate g)) (localDay tz now))
    as [Eq|Ne].
  - rewrite (slotFree_today tz cache (selectedDate g) now h Eq Hl Hh) in F.
    apply andb_true_iff in F as [_ F]. apply Z.ltb_lt in F.
    rewrite wallClock_eq in *. rewrite <- Eq in F. revert U F.
    generalize (localDay tz (selectedDate g)) (utcDay (selectedDate g)).
    unfold msPerDay, msPerHour, msPerMinute. intros. lia.
  - destruct (local_split tz now) as [Hn Bn].
    rewrite wallClock_eq. revert U Hday Ne Hn Bn.
    generalize (localDay tz (selectedDate g)) (utcDay (selectedDate g))
      (localDay tz now) (TimeWithinDay (LocalTime tz now)).
    unfold msPerDay, msPerHour, msPerMinute. intros. lia.
Qed.

Lemma fresh_booking_is_upcoming_witness :
  In (stored "doc-1" (morning + 1000)
             (newAppointment alice (initialState morning) "14:00"))
     (map Dashboard.app
          (upcomingAppointments (isoLocal (-180)) (userId alice)
             [stored "doc-1" (morning + 1000)
                     (newAppointment alice (initialState morning) "14:00")]
             morning)).
Proof.
  assert (Hz : -180 <= 0) by lia.
  assert (Hin : In "14:00"%string
                   (getAvailableSlots (-180) []
                      (selectedDate (initialState morning)) morning))
    by (vm_compute; tauto).
  assert (Hday : localDay (-180) morning
                 <= localDay (-180) (selectedDate (initialState morning)))
    by (vm_compute; discriminate).
  assert (Hy : 0 <= YearFromTime (selectedDate (initialState morning)) <= 9999)
    by (vm_compute; split; discriminate).
  assert (Hl : ~ 0 <= getFullYear (-180) (selectedDate (initialState morning))
                   <= 99)
    by (vm_compute; intros [_ H]; apply H; reflexivity).
  exact (fresh_booking_is_upcoming (-180) alice (initialState morning) []
           [stored "doc-1" (morning + 1000)
                   (newAppointment alice (initialState morning) "14:00")]
           morning "14:00" "doc-1" (morning + 1000) Hz Hin Hday Hy Hl
           (or_introl eq_refl)).
Defined.

Lemma insertSorted_first (x : Upcoming) (l : list Upcoming) :
  (forall y, In y l -> notAfter byDateTime x y = true) ->
  insertSorted byDateTime x l = x :: l.
Proof.
  destruct l as [|y r]; [reflexivity|]. intros H. cbn [insertSorted].
  now rewrite (H y (or_introl eq_refl)).
Qed.

Lemma notAfter_trans (x y z : Upcoming) :
  notAfter byDateTime x y = true -> startsNoLater y z ->
  notAfter byDateTime x z = true.
Proof.
  unfold notAfter, byDateTime, startsNoLater.
  destruct (dateTime x), (dateTime y), (dateTime z);
    try reflexivity; try contradiction.
  rewrite !Z.leb_le. lia.
Qed.

(** Filtering commutes with inserting into a sorted list. *)
Lemma filter_insertSorted (P : Upcoming -> bool) (x : Upcoming)
    (l : list Upcoming) :
  StronglySorted startsNoLater l ->
  List.filter P (insertSorted byDateTime x l)
  = if P x then insertSorted byDateTime x (List.filter P l)
    else List.filter P l.
Proof.
  induction 1 as [|y r Hs IH Hy]; cbn [insertSorted List.filter].
  - now destruct (P x).
  - destruct (notAfter byDateTime x y) eqn:N.
    + cbn [List.filter]. destruct (P x); [|reflexivity].
      symmetry. apply insertSorted_first. intros z Hz.
      assert (Hz' : In z (y :: r)).
      { destruct (P y); [|right]; try (now apply filter_In in Hz).
        destruct Hz as [<-|Hz]; [now left | right].
        now apply filter_In in Hz. }
      destruct Hz' as [<-|Hz']; [exact N|].
      rewrite List.Forall_forall in Hy.
      exact (notAfter_trans x y z N (Hy z Hz')).
    + cbn [List.filter]. rewrite IH.
      destruct (P y), (P x); cbn [insertSorted]; rewrite ?N; reflexivity.
Qed.

Lemma sort_filter (P : Upcoming -> bool) (l : list Upcoming) :
  Forall hasTime l ->
  sort byDateTime (List.filter P l) = List.filter P (sort byDateTime l).
Proof.
  induction 1 as [|x l Hx Hl IH]; [reflexivity|].
  cbn [List.filter sort fold_right]. fold (sort byDateTime l).
  rewrite filter_insertSorted by now apply sort_sorted.
  destruct (P x); [|exact IH].
  cbn [sort fold_right]. fold (sort byDateTime (List.filter P l)).
  now rewrite IH.
Qed.

(** X13.  As the clock advances the list only loses entries: the list
    at a later clock is the list at the earlier one without the
    records that have started since, in the same order. *)
Theorem upcoming_only_shrinks (dateOfString : string -> option Z)
    (userId : string) (appointments : list Appointment) (now later : Z) :
  now <= later ->
  upcomingAppointments dateOfString userId appointments later
  = List.filter (isFuture later)
      (upcomingAppointments dateOfString userId appointments now).
Proof.
  intros H. unfold upcomingAppointments.
  set (L := map (withDateTime dateOfString) _).
  rewrite <- sort_filter.
  - f_equal. rewrite <- filter_both. apply filter_ext. intros u.
    unfold isFuture. destruct (dateTime u) as [t|]; [|reflexivity].
    destruct (Z.leb_spec later t), (Z.leb_spec now t); reflexivity || lia.
  - rewrite Forall_forall. intros u Hu. rewrite list_elem_of_In in Hu.
    apply filter_In in Hu as [_ F]. unfold isFuture in F. unfold hasTime.
    destruct (dateTime u); [eauto|discriminate].
Qed.

Lemma upcoming_only_shrinks_witness :
  upcomingAppointments (isoLocal (-180)) "uid-alice"
                       [createdLater; createdEarlier] at16h
  = List.filter (isFuture at16h)
      (upcomingAppointments (isoLocal (-180)) "uid-alice"
                            [createdLater; createdEarlier] morning).
Proof.
  assert (H : morning <= at16h) by (vm_compute; discriminate).
  exact (upcoming_only_shrinks (isoLocal (-180)) "uid-alice"
           [createdLater; createdEarlier] morning at16h H).
Defined.

End DashboardMore.

(** * The profile form and what is shown of the profile *)

Module AuthFacts.

Import JSText AuthScreen DashboardProfile MoreScenarios.

Lemma countWords_trimStart (s : list N) :
  countWords true (trimStart s) = countWords true s.
Proof.
  induction s as [|c r IH]; [reflexivity|]. cbn [trimStart countWords].
  destruct (isWhiteSpace c) eqn:W; [exact IH|].
  cbn [countWords]. now rewrite W.
Qed.

Lemma startsClean_trimStart (s : list N) : startsClean (trimStart s) = true.
Proof.
  induction s as [|c r IH]; [reflexivity|]. cbn [trimStart].
  destruct (isWhiteSpace c) eqn:W; [exact IH|]. cbn. now rewrite W.
Qed.

Lemma countWords_trimEnd (s : list N) :
  forall inRun, countWords inRun (trimEnd s) = countWords inRun s.
Proof.
  induction s as [|c r IH]; intros inRun; [reflexivity|].
  cbn [trimEnd]. destruct (trimEnd r) as [|x r'] eqn:E.
  - cbn [countWords]. destruct (isWhiteSpace c) eqn:W.
    + now rewrite <- IH.
    + cbn [countWords]. rewrite W, <- IH. reflexivity.
  - cbn [countWords]. destruct (isWhiteSpace c); now rewrite <- IH.
Qed.

Lemma endsClean_trimEnd (s : list N) : endsClean (trimEnd s) = true.
Proof.
  induction s as [|c r IH]; [reflexivity|].
  cbn [trimEnd]. destruct (trimEnd r) as [|x r'] eqn:E.
  - destruct (isWhiteSpace c) eqn:W; cbn; now rewrite ?W.
  - exact IH.
Qed.

Lemma startsClean_trimEnd (s : list N) :
  startsClean s = true -> startsClean (trimEnd s) = true.
Proof.
  destruct s as [|c r]; [reflexivity|]. cbn [trimEnd startsClean].
  intros W. destruct (trimEnd r); [|exact W].
  apply negb_true_iff in W. rewrite W. cbn [startsClean]. now rewrite W.
Qed.

Lemma splitRuns_cons (inRun : bool) (s : list N) :
  exists h t, splitRuns inRun s = h :: t.
Proof.
  revert inRun. induction s as [|c r IH]; intros inRun; cbn [splitRuns].
  - eauto.
  - destruct (isWhiteSpace c).
    + destruct inRun; [apply IH | eauto].
    + destruct (IH false) as (h & t & ->). eauto.
Qed.

(** In a text that does not end in white space every run of white
    space ends a piece and is followed by a word. *)
Lemma length_splitRuns (s : list N) :
  forall inRun, endsClean s = true ->
  length (splitRuns inRun s)
  = (countWords inRun s
     + (if inRun then match s with [] => 1 | _ => 0 end else 1))%nat.
Proof.
  induction s as [|c r IH]; intros inRun C; [now destruct inRun|].
  cbn [splitRuns countWords]. destruct (isWhiteSpace c) eqn:W.
  - destruct r as [|x r']; [cbn in C; rewrite W in C; discriminate|].
    assert (C' : endsClean (x :: r') = true) by exact C.
    specialize (IH true C').
    destruct inRun; cbn [length]; rewrite IH; lia.
  - assert (C' : endsClean r = true) by (destruct r; [reflexivity | exact C]).
    specialize (IH false C').
    destruct (splitRuns_cons false r) as (h & t & E).
    rewrite E in IH |- *. cbn [length] in *. destruct inRun; lia.
Qed.

Lemma countWords_startsClean (s : list N) :
  startsClean s = true ->
  countWords true s
  = (countWords false s + match s with [] => 0 | _ => 1 end)%nat.
Proof.
  destruct s as [|c r]; [reflexivity|]. cbn [startsClean countWords].
  intros W. apply negb_true_iff in W. rewrite W. lia.
Qed.

(** The pieces of the trimmed text are its words, or one empty piece
    when it has none. *)
Lemma length_split_trim (s : list N) :
  length (splitWhiteSpace (trim s)) = Nat.max 1 (wordCount s).
Proof.
  unfold splitWhiteSpace, trim, wordCount.
  rewrite length_splitRuns by apply endsClean_trimEnd.
  rewrite <- (countWords_trimStart s), <- (countWords_trimEnd (trimStart s) true).
  rewrite (countWords_startsClean (trimEnd (trimStart s)))
    by apply startsClean_trimEnd, startsClean_trimStart.
  destruct (trimEnd (trimStart s)); cbn [countWords]; lia.
Qed.

(** X15.  The name check of the form rejects a name exactly when it has
    fewer than two words, a word being a maximal run of characters
    that are not white space: surrounding and repeated white space
    never makes a name pass or fail. *)
Theorem name_needs_two_words (nm : list N) :
  nameTooShort nm = (wordCount nm <? 2)%nat.
Proof.
  unfold nameTooShort. destruct nm as [|c r]; [reflexivity|].
  rewrite length_split_trim.
  destruct (Nat.ltb_spec (Nat.max 1 (wordCount (c :: r))) 2),
           (Nat.ltb_spec (wordCount (c :: r)) 2); reflexivity || lia.
Qed.

Lemma removeNonDigits_digits (s : list N) :
  forallb isDigit (removeNonDigits s) = true.
Proof.
  unfold removeNonDigits. apply forallb_forall. intros c H.
  now apply filter_In in H.
Qed.

Lemma wordCount_trim (s : list N) : wordCount (trim s) = wordCount s.
Proof.
  unfold wordCount, trim.
  now rewrite countWords_trimEnd, countWords_trimStart.
Qed.

(** X16.  [handleSubmit] hands a profile to [setDoc] exactly when the
    name has at least two words and the WhatsApp field holds exactly
    eleven digits among whatever else was typed.  A short name is
    reported first, then a wrong number of digits, each with its own
    text, with nothing written and [isLoading] back to false.  The
    profile written holds the trimmed name, with the same words and no
    white space at either end, the eleven digits alone, and
    [profileComplete]. *)
Theorem handleSubmit_outcomes (f : State) :
  ((wordCount (name f) < 2)%nat ->
   handleSubmit f
   = ({| name := name f; whatsapp := whatsapp f; isLoading := false;
         error := nameMessage |}, None))
  /\ ((2 <= wordCount (name f))%nat ->
      length (List.filter isDigit (whatsapp f)) <> 11%nat ->
      handleSubmit f
      = ({| name := name f; whatsapp := whatsapp f; isLoading := false;
            error := whatsappMessage |}, None))
  /\ ((2 <= wordCount (name f))%nat ->
      length (List.filter isDigit (whatsapp f)) = 11%nat ->
      exists p,
        handleSubmit f
        = ({| name := name f; whatsapp := whatsapp f; isLoading := true;
              error := EmptyString |}, Some p)
        /\ profileName p = trim (name f)
        /\ wordCount (profileName p) = wordCount (name f)
        /\ startsClean (profileName p) = true
        /\ endsClean (profileName p) = true
        /\ profileWhatsapp p = List.filter isDigit (whatsapp f)
        /\ length (profileWhatsapp p) = 11%nat
        /\ forallb isDigit (profileWhatsapp p) = true
        /\ profileComplete p = true).
Proof.
  unfold handleSubmit. rewrite name_needs_two_words.
  unfold formatWhatsapp, removeNonDigits.
  split; [|split].
  - intros H. apply Nat.ltb_lt in H. now rewrite H.
  - intros H D. apply Nat.ltb_ge in H. rewrite H.
    apply Nat.eqb_neq in D. now rewrite D.
  - intros H D. apply Nat.ltb_ge in H. rewrite H, D. cbn [Nat.eqb negb].
    eexists. split; [reflexivity|]. cbn.
    split; [reflexivity|]. split; [apply wordCount_trim|].
    split; [apply startsClean_trimEnd, startsClean_trimStart|].
    split; [apply endsClean_trimEnd|].
    split; [reflexivity|]. split; [exact D|].
    split; [apply (removeNonDigits_digits (whatsapp f)) | reflexivity].
Qed.

Lemma regroupDigits_short (s : list N) :
  (length s < 13)%nat -> regroupDigits s = s.
Proof.
  induction s as [|c r IH]; [reflexivity|]. intros L.
  cbn [regroupDigits].
  assert (E : (length (firstn 13 (c :: r)) =? 13)%nat = false).
  { apply Nat.eqb_neq. rewrite length_firstn. lia. }
  rewrite E. cbn [andb]. rewrite IH; [reflexivity|]. cbn [length] in L. lia.
Qed.

(** X17.  The dashboard never regroups a number the form accepted: the
    pattern of [formattedWhatsapp] needs thirteen digits in a row and
    the form writes eleven, so what is printed for a profile written
    by [handleSubmit] is a plus sign and the eleven digits as they
    are. *)
Theorem accepted_number_printed_plain (f f' : State) (p : Profile) :
  handleSubmit f = (f', Some p) ->
  formattedWhatsapp (profileWhatsapp p) = 43%N :: profileWhatsapp p.
Proof.
  unfold handleSubmit.
  destruct (nameTooShort (name f)); [discriminate|].
  destruct (length (formatWhatsapp (whatsapp f)) =? 11)%nat eqn:D;
    [|discriminate].
  cbn [negb]. intros E. injection E as _ <-. cbn [profileWhatsapp].
  apply Nat.eqb_eq in D. unfold formattedWhatsapp.
  destruct (formatWhatsapp (whatsapp f)) as [|c r] eqn:W; [discriminate|].
  f_equal. apply regroupDigits_short. lia.
Qed.

Lemma accepted_number_printed_plain_witness :
  formattedWhatsapp (ofString "11987654321") = 43%N :: ofString "11987654321".
Proof.
  exact (accepted_number_printed_plain filledForm
           {| name := name filledForm; whatsapp := whatsapp filledForm;
              isLoading := true; error := EmptyString |}
           {| profileName := ofString "Ana  Lima";
              profileWhatsapp := ofString "11987654321";
              profileComplete := true |}
           eq_refl).
Defined.

Lemma handleSubmit_outcomes_witness :
  exists p,
    handleSubmit filledForm
    = ({| name := name filledForm; whatsapp := whatsapp filledForm;
          isLoading := true; error := EmptyString |}, Some p)
    /\ profileName p = trim (name filledForm)
    /\ wordCount (profileName p) = wordCount (name filledForm)
    /\ startsClean (profileName p) = true
    /\ endsClean (profileName p) = true
    /\ profileWhatsapp p = List.filter isDigit (whatsapp filledForm)
    /\ length (profileWhatsapp p) = 11%nat
    /\ forallb isDigit (profileWhatsapp p) = true
    /\ profileComplete p = true.
Proof.
  assert (H1 : (2 <= wordCount (name filledForm))%nat)
    by (vm_compute; lia).
  assert (H2 : length (List.filter isDigit (whatsapp filledForm)) = 11%nat)
    by (vm_compute; reflexivity).
  exact (proj2 (proj2 (handleSubmit_outcomes filledForm)) H1 H2).
Defined.

End AuthFacts.

(** * The collection paths *)

Module PathFacts.

Import JSString Paths JSStringFacts MoreScenarios.

Lemma split_no_separator (sep : ascii) (a : string) :
  ~ In sep (list_ascii_of_string a) -> split sep a = [a].
Proof.
  induction a as [|c r IH]; [reflexivity|]. cbn [list_ascii_of_string split].
  intros H. destruct (Ascii.eqb_spec c sep) as [E|_].
  - exfalso. apply H. now left.
  - rewrite IH; [reflexivity|]. intros I. apply H. now right.
Qed.

Lemma split_append_separator (sep : ascii) (a b : string) :
  ~ In sep (list_ascii_of_string a) ->
  split sep (String.append a (String sep b)) = a :: split sep b.
Proof.
  induction a as [|c r IH]; cbn [list_ascii_of_string String.append split].
  - intros _. now rewrite Ascii.eqb_refl.
  - intros H. destruct (Ascii.eqb_spec c sep) as [E|_].
    + exfalso. apply H. now left.
    + rewrite IH; [reflexivity|]. intros I. apply H. now right.
Qed.


Lemma first_piece (sep : ascii) (s : string) :
  ~ In sep (list_ascii_of_string (nth 0 (split sep s) EmptyString))
  /\ String.prefix (nth 0 (split sep s) EmptyString) s = true.
Proof.
  induction s as [|c r [IH1 IH2]]; [split; [intros []|reflexivity]|].
  cbn [split]. destruct (Ascii.eqb_spec c sep) as [E|N].
  - split; [intros [] | reflexivity].
  - destruct (split_cons sep r) as (h & t & E). rewrite E in *.
    cbn [nth list_ascii_of_string String.prefix] in *. split.
    + intros [I|I]; [now apply N | now apply IH1].
    + destruct (ascii_dec c c); [exact IH2 | congruence].
Qed.

(** X18.  [appId] is the part of the configured id before its first
    slash: it never holds a slash, and it is the configured id itself
    when that has none.  Hence the appointments collection path has the
    same five segments whatever the configured id is. *)
Theorem appointments_path_five_segments (rawAppId : string) :
  ~ In "/"%char (list_ascii_of_string (appId rawAppId))
  /\ String.prefix (appId rawAppId) rawAppId = true
  /\ (~ In "/"%char (list_ascii_of_string rawAppId) -> appId rawAppId = rawAppId)
  /\ split "/" (getAppointmentsCollectionPath rawAppId)
     = ["artifacts"; appId rawAppId; "public"; "data"; "appointments"]%string.
Proof.
  destruct (first_piece "/" rawAppId) as [NS PF]. fold (appId rawAppId) in NS, PF.
  split; [exact NS|]. split; [exact PF|]. split.
  - intros H. unfold appId. now rewrite split_no_separator.
  - unfold getAppointmentsCollectionPath.
    change (String.append "artifacts/" ?x)
      with (String.append "artifacts" (String "/" x)).
    rewrite split_append_separator by (vm_compute; intuition discriminate).
    change "/public/data/appointments"%string
      with (String "/" "public/data/appointments").
    rewrite split_append_separator by exact NS.
    reflexivity.
Qed.

Lemma appointments_path_five_segments_witness :
  appId canvasAppId = "c_7f3a"%string
  /\ appId "default-app-id" = "default-app-id"%string.
Proof.
  split; [reflexivity|].
  apply (proj1 (proj2 (proj2 (appointments_path_five_segments "default-app-id")))).
  vm_compute. intuition discriminate.
Defined.



End PathFacts.
